(** * Price feeds of financial-templates-lib: TwelveData and Statistics Netherlands

    A shallow embedding of
      packages/financial-templates-lib/src/price-feed/TwelveDataApiPriceFeed.ts
      packages/financial-templates-lib/src/price-feed/StatisticsNetherlandsPriceFeed.ts
    and the properties of their update throttle, their historical-price
    lookup and their fixed-decimal price conversion.

    Conventions of the embedding.
    - A JavaScript [number] is [JS.number]: NaN, the two infinities, or an
      exact rational.  Rounding to IEEE-754 doubles is not modelled; every
      timestamp and clock value of the feeds is an integer far below 2^53.
    - A JavaScript string is a [string] of code units below 256.
    - A [BN] is an integer [Z].
    - A thrown [Error] is a value of [Error]; a method that may throw returns
      a [result].
    - [logger.debug] and [console.log] calls write nothing the feed reads
      back; they are left out. *)

From Stdlib Require Import ZArith QArith Qround Strings.String Strings.Ascii.
From Stdlib Require Import Lists.List Sorting.Sorted Lia Bool.
From Stdlib Require DecimalString.
Import ListNotations.

Open Scope Z_scope.

(** ** JavaScript values used by the feeds *)

Module JS.

(** What a strict comparison sees in a field: [undefined], [null] or a
    value. *)
Inductive nullable (A : Type) : Type :=
| undefined
| null
| value (a : A).
Arguments undefined {A}.
Arguments null {A}.
Arguments value {A} a.

(** A field declared [A | null] holds [null] or a value, never [undefined]. *)
Definition of_field {A : Type} (x : option A) : nullable A :=
  match x with
  | None => null
  | Some a => value a
  end.

Inductive number : Type :=
| NaN
| NegInfinity
| Finite (q : Q)
| PosInfinity.

Definition Int (z : Z) : number := Finite (inject_Z z).

Definition Qltb (a b : Q) : bool := Qnum a * QDen b <? Qnum b * QDen a.

(** [a < b] on numbers: false as soon as one side is NaN. *)
Definition lt (a b : number) : bool :=
  match a, b with
  | NaN, _ => false
  | _, NaN => false
  | _, NegInfinity => false
  | NegInfinity, _ => true
  | PosInfinity, _ => false
  | Finite _, PosInfinity => true
  | Finite x, Finite y => Qltb x y
  end.

(** ToBoolean on a number: 0 and NaN are falsy. *)
Definition truthy_number (n : number) : bool :=
  match n with
  | NaN => false
  | Finite q => negb (Qeq_bool q 0)
  | NegInfinity | PosInfinity => true
  end.

(** *** Strings *)

Definition code (c : ascii) : nat := nat_of_ascii c.

(** WhiteSpace and LineTerminator code units below 256. *)
Definition is_space (c : ascii) : bool :=
  let n := code c in
  ((9 <=? n) && (n <=? 13) || (n =? 32) || (n =? 160))%nat.

Fixpoint trim_start (s : list ascii) : list ascii :=
  match s with
  | c :: r => if is_space c then trim_start r else s
  | [] => []
  end.

Fixpoint trim_end (s : list ascii) : list ascii :=
  match s with
  | c :: r =>
      match trim_end r with
      | [] => if is_space c then [] else [c]
      | r' => c :: r'
      end
  | [] => []
  end.

(** [String.prototype.trim]. *)
Definition trim (s : string) : string :=
  string_of_list_ascii (trim_end (trim_start (list_ascii_of_string s))).

(** [s.substring(0, n)]: the first [n] code units, all of [s] when it is
    shorter, none when [n] is negative. *)
Definition substring0 (n : Z) (s : string) : string :=
  String.substring 0 (Z.to_nat n) s.

(** [s.slice(a, b)] for non-negative [a <= b]. *)
Definition slice (a b : nat) (s : string) : string :=
  String.substring a (b - a) s.

(** *** StringToNumber *)

Definition is_digit (c : ascii) : bool :=
  let n := code c in ((48 <=? n) && (n <=? 57))%nat.

Definition digit_val (c : ascii) : Z := Z.of_nat (code c) - 48.

(** Longest prefix of decimal digits: its value after [acc], the number of
    digits read after [n], and the rest. *)
Fixpoint take_digits (s : list ascii) (acc : Z) (n : nat) : Z * nat * list ascii :=
  match s with
  | c :: r =>
      if is_digit c then take_digits r (10 * acc + digit_val c) (S n)
      else (acc, n, s)
  | [] => (acc, n, [])
  end.

Definition is_e (c : ascii) : bool := ((code c =? 101) || (code c =? 69))%nat.

(** ExponentPart_opt followed by the end of the literal. *)
Definition exponent (s : list ascii) : option Z :=
  match s with
  | [] => Some 0
  | c :: r =>
      if is_e c then
        let '(sgn, r1) :=
          match r with
          | x :: r' =>
              if Ascii.eqb x "+" then (1, r')
              else if Ascii.eqb x "-" then (-1, r')
              else (1, r)
          | [] => (1, r)
          end in
        match take_digits r1 0 0 with
        | (v, S _, []) => Some (sgn * v)
        | _ => None
        end
      else None
  end.

Definition Infinity_lit : list ascii := list_ascii_of_string "Infinity".

Definition list_ascii_eqb (a b : list ascii) : bool :=
  String.eqb (string_of_list_ascii a) (string_of_list_ascii b).

(** StrUnsignedDecimalLiteral. *)
Definition unsigned_decimal (s : list ascii) : number :=
  if list_ascii_eqb s Infinity_lit then PosInfinity
  else
    let '(ip, n1, r1) := take_digits s 0 0 in
    let '(fp, n2, r2) :=
      match r1 with
      | x :: r => if Ascii.eqb x "." then take_digits r 0 0 else (0, 0%nat, r1)
      | [] => (0, 0%nat, r1)
      end in
    if (n1 + n2 =? 0)%nat then NaN
    else
      match exponent r2 with
      | Some e =>
          Finite ((inject_Z ip + inject_Z fp / inject_Z (10 ^ Z.of_nat n2))
                  * Qpower (inject_Z 10) e)
      | None => NaN
      end.

Definition negate (n : number) : number :=
  match n with
  | NaN => NaN
  | NegInfinity => PosInfinity
  | PosInfinity => NegInfinity
  | Finite q => Finite (- q)
  end.

(** Digit of a NonDecimalIntegerLiteral in the given radix. *)
Definition radix_digit (radix : Z) (c : ascii) : option Z :=
  let n := Z.of_nat (code c) in
  let v :=
    if (48 <=? n) && (n <=? 57) then n - 48
    else if (97 <=? n) && (n <=? 102) then n - 87
    else if (65 <=? n) && (n <=? 70) then n - 55
    else radix in
  if v <? radix then Some v else None.

Fixpoint radix_digits (radix : Z) (s : list ascii) (acc : Z) : option Z :=
  match s with
  | [] => Some acc
  | c :: r =>
      match radix_digit radix c with
      | Some v => radix_digits radix r (radix * acc + v)
      | None => None
      end
  end.

Definition radix_literal (radix : Z) (s : list ascii) : number :=
  match s with
  | [] => NaN
  | _ => match radix_digits radix s 0 with
         | Some v => Int v
         | None => NaN
         end
  end.

Definition radix_of (c : ascii) : option Z :=
  let n := code c in
  if ((n =? 120) || (n =? 88))%nat then Some 16
  else if ((n =? 111) || (n =? 79))%nat then Some 8
  else if ((n =? 98) || (n =? 66))%nat then Some 2
  else None.

(** StrNumericLiteral, after the white space around it is removed. *)
Definition numeric_literal (s : list ascii) : number :=
  match s with
  | [] => Int 0
  | c :: r =>
      if Ascii.eqb c "+" then unsigned_decimal r
      else if Ascii.eqb c "-" then negate (unsigned_decimal r)
      else
        match r with
        | x :: r' =>
            match (if Ascii.eqb c "0" then radix_of x else None) with
            | Some radix => radix_literal radix r'
            | None => unsigned_decimal s
            end
        | [] => unsigned_decimal s
        end
  end.

(** ToNumber on a string ([Number(s)], and the conversion [<] applies to a
    string operand facing a number). *)
Definition StringToNumber (s : string) : number :=
  numeric_literal (trim_end (trim_start (list_ascii_of_string s))).

(** A value read from a JSON record field that is a number, a string, or
    missing. *)
Inductive val : Type :=
| VUndefined
| VNum (n : number)
| VStr (s : string).

Definition ToNumber (v : val) : number :=
  match v with
  | VUndefined => NaN
  | VNum n => n
  | VStr s => StringToNumber s
  end.

Definition truthy (v : val) : bool :=
  match v with
  | VUndefined => false
  | VNum n => truthy_number n
  | VStr s => negb (String.eqb s "")
  end.

(** [time < v] for a number [time]: the other operand goes through
    ToNumber. *)
Definition lt_val (time : number) (v : val) : bool := lt time (ToNumber v).

(** *** Arrays *)

(** [Array.prototype.findIndex]: -1 when no element passes. *)
Fixpoint findIndex {A : Type} (f : A -> bool) (l : list A) : Z :=
  match l with
  | [] => -1
  | x :: r =>
      if f x then 0
      else let i := findIndex f r in if i <? 0 then -1 else i + 1
  end.

(** [l[i]] for an integer index; [None] is [undefined]. *)
Definition index {A : Type} (l : list A) (i : Z) : option A :=
  if i <? 0 then None else nth_error l (Z.to_nat i).

(** *** Date.UTC and moment's unix() *)

Definition leap_year (y : Z) : bool :=
  ((y mod 4 =? 0) && negb (y mod 100 =? 0)) || (y mod 400 =? 0).

(** DayFromYear of ECMA-262: day number of January 1st of year [y]. *)
Definition DayFromYear (y : Z) : Z :=
  365 * (y - 1970) + (y - 1969) / 4 - (y - 1901) / 100 + (y - 1601) / 400.

(** Days of the year before month [mn] (0 = January). *)
Definition days_before_month (mn : Z) (leap : bool) : Z :=
  let l := if leap then 1 else 0 in
  match mn with
  | 0 => 0 | 1 => 31 | 2 => 59 + l | 3 => 90 + l | 4 => 120 + l
  | 5 => 151 + l | 6 => 181 + l | 7 => 212 + l | 8 => 243 + l
  | 9 => 273 + l | 10 => 304 + l | _ => 334 + l
  end.

(** ToIntegerOrInfinity on a finite number: truncation towards zero. *)
Definition trunc (q : Q) : Z := Z.quot (Qnum q) (QDen q).

(** [Date.UTC(year, month, date, hours, minutes, seconds)] in milliseconds. *)
Definition DateUTC (year month : number) (date hours minutes seconds : Z) : number :=
  match year, month with
  | Finite y, Finite m =>
      let yi := trunc y in
      let yr := if (0 <=? yi) && (yi <=? 99) then 1900 + yi else yi in
      let mi := trunc m in
      let ym := yr + mi / 12 in
      let mn := mi mod 12 in
      let day := DayFromYear ym + days_before_month mn (leap_year ym) + date - 1 in
      let tv := day * 86400000 + (hours * 3600 + minutes * 60 + seconds) * 1000 in
      if Z.abs tv <=? 8640000000000000 then Int tv else NaN
  | _, _ => NaN
  end.

(** [moment(new Date(ms)).unix()]: [Math.floor(ms / 1000)]. *)
Definition unix (ms : number) : number :=
  match ms with
  | Finite q => Int (Qfloor (q / inject_Z 1000))
  | _ => NaN
  end.

(** *** Number to string, padStart *)




End JS.

Import JS.
Open Scope string_scope.
Open Scope Z_scope.

(** ** What the two feeds share *)

Inductive result (E A : Type) : Type :=
| Ok (a : A)
| Throw (e : E).
Arguments Ok {E A} a.
Arguments Throw {E A} e.

(** Faults of [parseFixed]. *)
Inductive ParseFault : Type :=
| InvalidDecimalSize
| InvalidDecimalValue
| MissingValue
| TooManyDecimalPoints
| FractionalComponentExceedsDecimals.

(** The errors of a feed, by the message of the [Error] thrown; [R] is the
    type of the raw response.
    - [UninitializedFeedError]: "<uuid>: undefined lastUpdateTime"
    - [EmptySeriesError]: "<uuid>: no valid price periods"
    - [BeforeLookbackWindowError]: "<uuid>: time <time> is before
      firstPricePeriod.openTime" (closeTime in the Statistics Netherlands feed)
    - [MissingCurrentPriceError]: "<uuid>: currentPrice is null"
    - [DataSourceError]: "Could not parse price result from url <url>:
      <JSON.stringify(historyResponse)>"
    - [ConversionError]: what [parseFixed] throws
    - [NetworkError]: the rejection of [networker.getJson], passed on. *)
Inductive Error (R : Type) : Type :=
| UninitializedFeedError
| EmptySeriesError
| BeforeLookbackWindowError
| MissingCurrentPriceError
| DataSourceError (url : string) (raw : R)
| ConversionError (f : ParseFault)
| NetworkError (msg : string).
Arguments UninitializedFeedError {R}.
Arguments EmptySeriesError {R}.
Arguments BeforeLookbackWindowError {R}.
Arguments MissingCurrentPriceError {R}.
Arguments DataSourceError {R} url raw.
Arguments ConversionError {R} f.
Arguments NetworkError {R} msg.

(** [networker.getJson]: the parsed body, or a rejection with its message. *)
Definition Networker (R : Type) : Type := string -> result string R.

(** [array.map(f)] for an [f] that may throw: the first throw ends it. *)
Fixpoint mapM {E A B : Type} (f : A -> result E B) (l : list A) : result E (list B) :=
  match l with
  | [] => Ok []
  | x :: r =>
      match f x with
      | Throw e => Throw e
      | Ok y =>
          match mapM f r with
          | Throw e => Throw e
          | Ok ys => Ok (y :: ys)
          end
      end
  end.

Module Fixed.

Definition is_dot (c : ascii) : bool := Ascii.eqb c ".".

(** [value.split(".")]: the part before the first dot and, when there is a
    dot, what follows it. *)
Fixpoint split_dot (s : list ascii) : list ascii * option (list ascii) :=
  match s with
  | [] => ([], None)
  | c :: r =>
      if is_dot c then ([], Some r)
      else let '(w, f) := split_dot r in (c :: w, f)
  end.

Fixpoint strip_trailing_zeros (s : list ascii) : list ascii :=
  match s with
  | c :: r =>
      match strip_trailing_zeros r with
      | [] => if Ascii.eqb c "0" then [] else [c]
      | r' => c :: r'
      end
  | [] => []
  end.

Definition digits_value (s : list ascii) : Z :=
  fold_left (fun acc c => 10 * acc + digit_val c) s 0.

(** Modelled from the spec: [parseFixed], imported from @uma/common, is not
    among the sources.  The spec asks that a decimal string be converted to
    an integer scaled by [10^decimals] and that it carry no more fractional
    digits than [decimals]; this follows the [parseFixed] of
    @ethersproject/bignumber: an optional minus sign, then digits with at
    most one dot; trailing zeros of the fraction do not count. *)
Definition parseFixed (value : string) (decimals : Z) : result ParseFault Z :=
  if (decimals <? 0) || (256 <? decimals) then Throw InvalidDecimalSize
  else
    let s := list_ascii_of_string value in
    let '(negative, s) :=
      match s with
      | c :: r => if Ascii.eqb c "-" then (true, r) else (false, s)
      | [] => (false, s)
      end in
    match s with
    | [] => Throw InvalidDecimalValue
    | _ =>
        if negb (forallb (fun c => is_digit c || is_dot c) s) then
          Throw InvalidDecimalValue
        else
          let '(whole, rest) := split_dot s in
          match rest with
          | None => Ok ((if negative then -1 else 1) * (digits_value whole * 10 ^ decimals))
          | Some fraction =>
              if existsb is_dot fraction then Throw TooManyDecimalPoints
              else
                match whole, fraction with
                | [], [] => Throw MissingValue
                | _, _ =>
                    let fraction := strip_trailing_zeros fraction in
                    let n := Z.of_nat (List.length fraction) in
                    if decimals <? n then Throw FractionalComponentExceedsDecimals
                    else
                      Ok ((if negative then -1 else 1)
                          * (digits_value whole * 10 ^ decimals
                             + digits_value fraction * 10 ^ (decimals - n)))
                end
          end
    end.

End Fixed.

(** A sample of a series with integer timestamps: its timestamp in seconds
    and its price. *)
Definition Sample : Type := (Z * Z)%type.
Definition timestamp (s : Sample) : Z := fst s.
Definition price_of (s : Sample) : Z := snd s.

(** ** TwelveDataApiPriceFeed.ts *)

Module TwelveData.

(** Constructor parameters the methods read. *)
Record Config : Type := {
  index : string;
  apiKey : string;
  lookback : Z;
  priceFeedDecimals : Z;
  minTimeBetweenUpdates : Z
}.

Definition default_priceFeedDecimals : Z := 18.
Definition default_minTimeBetweenUpdates : Z := 43200.

(** An element of [priceHistory].  The field is declared [date: number], but
    [update] stores [dailyData.datetime] as it came, so it holds a [val]. *)
Record PricePeriod : Type := {
  date : val;
  closePrice : Z
}.

Record State : Type := {
  priceHistory : list PricePeriod;
  currentPrice : option Z;
  lastUpdateTime : option Z
}.

(** The fields as the constructor leaves them. *)
Definition initial : State :=
  {| priceHistory := []; currentPrice := None; lastUpdateTime := None |}.

(** A record of [historyResponse.values]. *)
Record DailyData : Type := {
  datetime : val;
  close : string
}.

(** What [getJson] resolved to: nothing ([null] or [undefined]), an object
    without [values], or an object with the array [values]. *)
Inductive Response : Type :=
| Absent
| NoValues
| Values (values : list DailyData).

Definition Err : Type := Error Response.

(** What a call of [update] did: how it returned, the fields afterwards and
    the URLs it requested. *)
Record Outcome : Type := {
  returned : result Err unit;
  state : State;
  requests : list string
}.

Section Feed.

(** The request URL is one string literal in [update]; neither the
    configuration nor the clock enters it. *)
Variable url : string.

Variable cfg : Config.

Definition convertPriceFeedDecimals (number : string) : result ParseFault Z :=
  Fixed.parseFixed (substring0 (priceFeedDecimals cfg) number) (priceFeedDecimals cfg).

(** [lastUpdateTime !== null && lastUpdateTime + minTimeBetweenUpdates >
    currentTime]. *)
Definition tooRecent (st : State) (currentTime : Z) : bool :=
  match of_field (lastUpdateTime st) with
  | value t => currentTime <? t + minTimeBetweenUpdates cfg
  | null => false
  | undefined => false
  end.

Definition parsePeriod (dailyData : DailyData) : result Err PricePeriod :=
  match convertPriceFeedDecimals (close dailyData) with
  | Ok p => Ok {| date := datetime dailyData; closePrice := p |}
  | Throw f => Throw (ConversionError f)
  end.

Definition failed (e : Err) (st : State) (reqs : list string) : Outcome :=
  {| returned := Throw e; state := st; requests := reqs |}.

(** [update()], with [currentTime] the value [getTime()] resolved to. *)
Definition update (networker : Networker Response) (currentTime : Z) (st : State) : Outcome :=
  if tooRecent st currentTime then
    {| returned := Ok tt; state := st; requests := [] |}
  else
    match networker url with
    | Throw msg => failed (NetworkError msg) st [url]
    | Ok historyResponse =>
        match historyResponse with
        | Absent | NoValues | Values [] =>
            failed (DataSourceError url historyResponse) st [url]
        | Values values =>
            match mapM parsePeriod values with
            | Throw e => failed e st [url]
            | Ok newHistoricalPricePeriods =>
                {| returned := Ok tt;
                   state :=
                     {| currentPrice :=
                          option_map closePrice
                            (JS.index newHistoricalPricePeriods
                               (Z.of_nat (List.length newHistoricalPricePeriods) - 1));
                        priceHistory := newHistoricalPricePeriods;
                        lastUpdateTime := Some currentTime |};
                   requests := [url] |}
            end
        end
    end.

End Feed.

Definition getCurrentPrice (st : State) : option Z := currentPrice st.

(** [getHistoricalPrice(time)]; [verbose] only prints. *)
Definition getHistoricalPrice (st : State) (time : number) : result Err Z :=
  match of_field (lastUpdateTime st) with
  | undefined => Throw UninitializedFeedError
  | _ =>
      match find (fun p => truthy (date p)) (priceHistory st) with
      | None => Throw EmptySeriesError
      | Some firstPrice =>
          if lt_val time (date firstPrice) then Throw BeforeLookbackWindowError
          else
            match find (fun pricePeriod => lt_val time (date pricePeriod)) (priceHistory st) with
            | None =>
                match currentPrice st with
                | None => Throw MissingCurrentPriceError
                | Some returnPrice => Ok returnPrice
                end
            | Some match_ => Ok (closePrice match_)
            end
      end
  end.

Definition getLastUpdateTime (st : State) : option Z := lastUpdateTime st.

(** A sample with an integer timestamp, as a price period. *)
Definition period (s : Sample) : PricePeriod :=
  {| date := VNum (Int (timestamp s)); closePrice := price_of s |}.

Definition getLookback (cfg : Config) : Z := lookback cfg.

Definition getPriceFeedDecimals (cfg : Config) : Z := priceFeedDecimals cfg.

End TwelveData.

(** ** StatisticsNetherlandsPriceFeed.ts *)

Module StatisticsNetherlands.

Record Config : Type := {
  symbolString : string;
  lookback : Z;
  priceFeedDecimals : Z;
  minTimeBetweenUpdates : Z
}.

Definition default_priceFeedDecimals : Z := 18.
Definition default_minTimeBetweenUpdates : Z := 900.

Record PricePeriod : Type := {
  date : number;
  price : Z
}.

Record State : Type := {
  priceHistory : list PricePeriod;
  currentPrice : option Z;
  lastUpdateTime : option Z
}.

Definition initial : State :=
  {| priceHistory := []; currentPrice := None; lastUpdateTime := None |}.

(** A record of [historyResponse.value]. *)
Record DailyData : Type := {
  Periods : string;
  PriceIndexOfExistingOwnHomes_1 : string
}.

Inductive Response : Type :=
| Absent
| NoValue
| Value (value : list DailyData).

Definition Err : Type := Error Response.

Record Outcome : Type := {
  returned : result Err unit;
  state : State;
  requests : list string
}.

(** "2023MM01" to the Unix time of the 22nd, 02:00 UTC, of the month whose
    zero-based index is the number after "MM". *)
Definition convertFormattedDateToTimestamp (formattedDate : string) : number :=
  let year := slice 0 4 formattedDate in
  let monthString := slice 6 8 formattedDate in
  unix (DateUTC (StringToNumber year) (StringToNumber monthString) 22 2 0 0).

Section Feed.

(** [_secondToDate] and [formatDate] render a time in the time zone of the
    host through moment and [Date]; they are taken as given. *)
Variable _secondToDate : Z -> string.
Variable formatDate : string -> string.

Variable cfg : Config.

Definition convertPriceFeedDecimals (number : string) : result ParseFault Z :=
  Fixed.parseFixed (substring0 (priceFeedDecimals cfg) number) (priceFeedDecimals cfg).

Definition tooRecent (st : State) (currentTime : Z) : bool :=
  match of_field (lastUpdateTime st) with
  | value t => currentTime <? t + minTimeBetweenUpdates cfg
  | null => false
  | undefined => false
  end.

Definition url_of (currentTime : Z) : string :=
  let startLookbackWindow := currentTime - lookback cfg in
  let dataFetchStartDateString := _secondToDate startLookbackWindow in
  let formattedStartDateString := formatDate dataFetchStartDateString in
  "https://opendata.cbs.nl/ODataApi/odata/83906ENG/UntypedDataSet"
  ++ "?$filter=Periods ge '" ++ formattedStartDateString ++ "'".

Definition parsePeriod (dailyData : DailyData) : result Err PricePeriod :=
  let d := convertFormattedDateToTimestamp (Periods dailyData) in
  match convertPriceFeedDecimals (trim (PriceIndexOfExistingOwnHomes_1 dailyData)) with
  | Ok p => Ok {| date := d; price := p |}
  | Throw f => Throw (ConversionError f)
  end.

Definition failed (e : Err) (st : State) (reqs : list string) : Outcome :=
  {| returned := Throw e; state := st; requests := reqs |}.

Definition update (networker : Networker Response) (currentTime : Z) (st : State) : Outcome :=
  if tooRecent st currentTime then
    {| returned := Ok tt; state := st; requests := [] |}
  else
    let url := url_of currentTime in
    match networker url with
    | Throw msg => failed (NetworkError msg) st [url]
    | Ok historyResponse =>
        match historyResponse with
        | Absent | NoValue | Value [] =>
            failed (DataSourceError url historyResponse) st [url]
        | Value values =>
            match mapM parsePeriod values with
            | Throw e => failed e st [url]
            | Ok newHistoricalPricePeriods =>
                {| returned := Ok tt;
                   state :=
                     {| currentPrice :=
                          option_map price
                            (JS.index newHistoricalPricePeriods
                               (Z.of_nat (List.length newHistoricalPricePeriods) - 1));
                        priceHistory := newHistoricalPricePeriods;
                        lastUpdateTime := Some currentTime |};
                   requests := [url] |}
            end
        end
    end.

End Feed.

Definition getCurrentPrice (st : State) : option Z := currentPrice st.

Definition getHistoricalPrice (st : State) (time : number) : result Err Z :=
  match of_field (lastUpdateTime st) with
  | undefined => Throw UninitializedFeedError
  | _ =>
      match find (fun p => truthy_number (date p)) (priceHistory st) with
      | None => Throw EmptySeriesError
      | Some firstPrice =>
          if lt time (date firstPrice) then Throw BeforeLookbackWindowError
          else
            let matchedIndex :=
              findIndex (fun pricePeriod => lt time (date pricePeriod)) (priceHistory st) in
            let match_ :=
              if 0 <? matchedIndex then JS.index (priceHistory st) (matchedIndex - 1)
              else None in
            match match_ with
            | None =>
                match currentPrice st with
                | None => Throw MissingCurrentPriceError
                | Some returnPrice => Ok returnPrice
                end
            | Some m => Ok (price m)
            end
      end
  end.

Definition getLastUpdateTime (st : State) : option Z := lastUpdateTime st.

(** A sample with an integer timestamp, as a price period. *)
Definition period (s : Sample) : PricePeriod :=
  {| date := Int (timestamp s); price := price_of s |}.

Definition getLookback (cfg : Config) : Z := lookback cfg.

Definition getPriceFeedDecimals (cfg : Config) : Z := priceFeedDecimals cfg.



End StatisticsNetherlands.

(** ** Series, states and responses the statements speak about *)

Open Scope list_scope.
Open Scope Z_scope.

Module T := TwelveData.
Module S := StatisticsNetherlands.

(** Ordered from the oldest to the newest. *)
Definition ordered (h : list Sample) : Prop :=
  Sorted (fun a b => timestamp a <= timestamp b) h.

(** A sample whose date is truthy, and a sample dated after a time. *)
Definition nonzero (s : Sample) : bool := negb (timestamp s =? 0).
Definition after (time : Z) (s : Sample) : bool := time <? timestamp s.

(** What a lookup that found no period to return gives back. *)
Definition current_or_missing {R : Type} (cp : option Z) : result (Error R) Z :=
  match cp with
  | Some p => Ok p
  | None => Throw MissingCurrentPriceError
  end.

(** The scenario of the specification. *)
Definition scenario : list Sample := [(100, 10); (200, 20); (300, 30)].

Definition scenario_a : T.State :=
  {| T.priceHistory := map T.period scenario;
     T.currentPrice := Some 30;
     T.lastUpdateTime := Some 1000 |}.

Definition scenario_b : S.State :=
  {| S.priceHistory := map S.period scenario;
     S.currentPrice := Some 30;
     S.lastUpdateTime := Some 1000 |}.

(** A series that starts at timestamp 0. *)
Definition from_epoch : list Sample := [(0, 10); (10, 20); (20, 30)].

(** The sample responses quoted in the two [update] methods. *)
Definition twelve_sample_values : list T.DailyData :=
  [ {| T.datetime := VStr "2023-02-10 15:30:00"; T.close := "116.84000" |};
    {| T.datetime := VStr "2023-02-10 14:30:00"; T.close := "116.64000" |} ].

Definition statistics_sample_value : list S.DailyData :=
  [ {| S.Periods := "2023MM01"; S.PriceIndexOfExistingOwnHomes_1 := "   183.3" |};
    {| S.Periods := "2023MM02"; S.PriceIndexOfExistingOwnHomes_1 := "   180.6" |} ].

Definition twelve_cfg : T.Config :=
  {| T.index := "URTH"; T.apiKey := "key"; T.lookback := 345600;
     T.priceFeedDecimals := T.default_priceFeedDecimals;
     T.minTimeBetweenUpdates := T.default_minTimeBetweenUpdates |}.

Definition statistics_cfg : S.Config :=
  {| S.symbolString := "NLHPI"; S.lookback := 7776000;
     S.priceFeedDecimals := S.default_priceFeedDecimals;
     S.minTimeBetweenUpdates := S.default_minTimeBetweenUpdates |}.

Definition twelve_net : Networker T.Response :=
  fun _ => Ok (T.Values twelve_sample_values).

Definition statistics_net : Networker S.Response :=
  fun _ => Ok (S.Value statistics_sample_value).

(** A host whose date rendering is of no concern. *)
Definition any_secondToDate : Z -> string := fun _ => "2023-01-01".
Definition any_formatDate : string -> string := fun _ => "2023MM01".

(** The state a refresh on the sample response leaves. *)
Definition twelve_after_sample : T.State :=
  T.state (T.update "url" twelve_cfg twelve_net 1676300000 T.initial).

Definition statistics_after_sample : S.State :=
  S.state (S.update any_secondToDate any_formatDate statistics_cfg statistics_net
             1676300000 S.initial).

(** "YYYY-MM-DD hh:mm:ss": the shape of [datetime] in a TwelveData response. *)
Definition is_datetime (s : string) : bool :=
  match list_ascii_of_string s with
  | [y1; y2; y3; y4; d1; m1; m2; d2; a1; a2; sp; h1; h2; c1; n1; n2; c2; s1; s2] =>
      forallb is_digit [y1; y2; y3; y4; m1; m2; a1; a2; h1; h2; n1; n2; s1; s2]
      && Ascii.eqb d1 "-" && Ascii.eqb d2 "-" && Ascii.eqb sp " "
      && Ascii.eqb c1 ":" && Ascii.eqb c2 ":"
  | _ => false
  end.

(** The states a feed goes through: the one the constructor leaves, then the
    one each call of [update] leaves, whatever the clock says and whatever
    the network answers. *)
Inductive T_reachable (url : string) (cfg : T.Config) : T.State -> Prop :=
| T_constructed : T_reachable url cfg T.initial
| T_updated (net : Networker T.Response) (now : Z) (st : T.State) :
    T_reachable url cfg st ->
    T_reachable url cfg (T.state (T.update url cfg net now st)).

Inductive S_reachable (secondToDate : Z -> string) (formatDate : string -> string)
    (cfg : S.Config) : S.State -> Prop :=
| S_constructed : S_reachable secondToDate formatDate cfg S.initial
| S_updated (net : Networker S.Response) (now : Z) (st : S.State) :
    S_reachable secondToDate formatDate cfg st ->
    S_reachable secondToDate formatDate cfg
      (S.state (S.update secondToDate formatDate cfg net now st)).

(** A period code "YYYY..MM": four digits of a year, two characters, two
    digits of a month; the year and the month it names. *)
Definition period_key (s : string) : option (Z * Z) :=
  match list_ascii_of_string s with
  | y1 :: y2 :: y3 :: y4 :: _ :: _ :: m1 :: m2 :: _ =>
      if forallb is_digit [y1; y2; y3; y4; m1; m2] then
        Some (Fixed.digits_value [y1; y2; y3; y4], Fixed.digits_value [m1; m2])
      else None
  | _ => None
  end.

(** Months counted from year 0. *)
Definition months (k : Z * Z) : Z := 12 * fst k + snd k.

(** Unix time of the 22nd, 02:00 UTC, of the month that comes [k] months
    after January of year 0. *)
Definition publication_time (k : Z) : Z :=
  (DayFromYear (k / 12) + days_before_month (k mod 12) (leap_year (k / 12)) + 21) * 86400
  + 7200.

(** ** Lemmas on numbers and arrays *)

Lemma lt_Int (a b : Z) : lt (Int a) (Int b) = (a <? b).
Proof.
  unfold Int, lt, Qltb, inject_Z; simpl.
  now rewrite !Z.mul_1_r.
Qed.

Lemma truthy_number_Int (t : Z) : truthy_number (Int t) = negb (t =? 0).
Proof.
  unfold Int, truthy_number, Qeq_bool, inject_Z; simpl.
  rewrite Z.mul_1_r.
  now destruct t.
Qed.

Section Arrays.

Context {A B : Type}.
Implicit Types (f : A -> bool) (l : list A).

Lemma find_map (p : B -> bool) (g : A -> B) l :
  find p (map g l) = option_map g (find (fun x => p (g x)) l).
Proof.
  induction l as [|x l IH]; simpl; [reflexivity|].
  now destruct (p (g x)).
Qed.

Lemma findIndex_map (p : B -> bool) (g : A -> B) l :
  findIndex p (map g l) = findIndex (fun x => p (g x)) l.
Proof.
  induction l as [|x l IH]; simpl; [reflexivity|].
  now rewrite IH.
Qed.

Lemma find_ext f f' l : (forall x, f x = f' x) -> find f l = find f' l.
Proof.
  intros E; induction l as [|x l IH]; simpl; [reflexivity|].
  now rewrite E, IH.
Qed.

Lemma findIndex_ext f f' l : (forall x, f x = f' x) -> findIndex f l = findIndex f' l.
Proof.
  intros E; induction l as [|x l IH]; simpl; [reflexivity|].
  now rewrite E, IH.
Qed.


Lemma find_none_all f l : Forall (fun x => f x = false) l -> find f l = None.
Proof.
  induction 1 as [|x l Hx _ IH]; simpl; [reflexivity|].
  now rewrite Hx.
Qed.

Lemma findIndex_none f l : Forall (fun x => f x = false) l -> findIndex f l = -1.
Proof.
  induction 1 as [|x l Hx _ IH]; simpl; [reflexivity|].
  now rewrite Hx, IH.
Qed.

(** The first element that passes, after a prefix where none does. *)
Lemma find_after f l1 x l2 :
  Forall (fun y => f y = false) l1 -> f x = true -> find f (l1 ++ x :: l2) = Some x.
Proof.
  induction 1 as [|y l1 Hy _ IH]; simpl; intros Hx.
  - now rewrite Hx.
  - rewrite Hy; auto.
Qed.

Lemma findIndex_after f l1 x l2 :
  Forall (fun y => f y = false) l1 -> f x = true ->
  findIndex f (l1 ++ x :: l2) = Z.of_nat (List.length l1).
Proof.
  induction 1 as [|y l1 Hy _ IH]; intros Hx.
  - simpl. now rewrite Hx.
  - cbn [app findIndex List.length]. rewrite Hy, IH by assumption.
    destruct (Z.of_nat (List.length l1) <? 0) eqn:E; [apply Z.ltb_lt in E|]; lia.
Qed.

(** Some element up to and including [x] is the first that passes, when [x]
    passes. *)
Lemma find_upto f l1 x l2 :
  f x = true ->
  exists y, find f (l1 ++ x :: l2) = Some y /\ (In y l1 \/ y = x).
Proof.
  intros Hx; induction l1 as [|z l1 IH]; simpl.
  - rewrite Hx. eauto.
  - destruct (f z) eqn:Hz.
    + eauto.
    + destruct IH as (y & Hy & Hin). exists y. tauto.
Qed.

Lemma find_some_of_exists f l :
  (exists x, In x l /\ f x = true) -> exists y, find f l = Some y /\ In y l /\ f y = true.
Proof.
  intros (x & Hin & Hx).
  destruct (find f l) as [y|] eqn:E.
  - exists y. apply find_some in E. tauto.
  - pose proof (find_none f l E x Hin). congruence.
Qed.

Lemma index_middle l1 x l2 :
  JS.index (l1 ++ x :: l2) (Z.of_nat (List.length l1)) = Some x.
Proof.
  unfold JS.index.
  destruct (Z.of_nat (List.length l1) <? 0) eqn:E; [apply Z.ltb_lt in E; lia|].
  rewrite Nat2Z.id, nth_error_app2, Nat.sub_diag by lia.
  reflexivity.
Qed.

Lemma index_last l x :
  JS.index (l ++ [x]) (Z.of_nat (List.length (l ++ [x])) - 1) = Some x.
Proof.
  rewrite length_app; simpl.
  replace (Z.of_nat (List.length l + 1) - 1) with (Z.of_nat (List.length l)) by lia.
  apply index_middle.
Qed.

End Arrays.

(** ** Series of integer timestamps *)

Lemma ordered_around (l1 : list Sample) (a : Sample) (r : list Sample) :
  ordered (l1 ++ a :: r) ->
  Forall (fun x => timestamp x <= timestamp a) l1
  /\ Forall (fun x => timestamp a <= timestamp x) r.
Proof.
  intros H. apply Sorted_StronglySorted in H; [|intros x y z; lia].
  induction l1 as [|y l1 IH]; simpl in H.
  - apply StronglySorted_inv in H. split; [constructor|apply H].
  - apply StronglySorted_inv in H. destruct H as [H Hy].
    destruct (IH H) as [IH1 IH2]. split; [|assumption].
    constructor; [|assumption].
    rewrite Forall_forall in Hy. apply Hy, in_elt.
Qed.

(** ** The lookup on a series of integer timestamps *)

Lemma T_lookup_numeric (st : T.State) (hist : list Sample) (time : Z) :
  T.priceHistory st = map T.period hist ->
  T.getHistoricalPrice st (Int time) =
    match find nonzero hist with
    | None => Throw EmptySeriesError
    | Some firstPrice =>
        if after time firstPrice then Throw BeforeLookbackWindowError
        else
          match find (after time) hist with
          | None => current_or_missing (T.currentPrice st)
          | Some m => Ok (price_of m)
          end
    end.
Proof.
  intros H. unfold T.getHistoricalPrice. rewrite H.
  rewrite !find_map.
  rewrite (find_ext _ nonzero) by (intros x; apply truthy_number_Int).
  rewrite (find_ext (fun x => lt_val _ _) (after time)) by (intros x; apply lt_Int).
  assert (E : forall f, lt_val (Int time) (T.date (T.period f)) = after time f)
    by (intros f; apply lt_Int).
  destruct (T.lastUpdateTime st); cbn [of_field];
    (destruct (find nonzero hist) as [f|]; cbn [option_map]; [|reflexivity]);
    rewrite E;
    (destruct (after time f); [reflexivity|]);
    now destruct (find (after time) hist).
Qed.

Lemma index_map {A B : Type} (g : A -> B) (l : list A) (i : Z) :
  JS.index (map g l) i = option_map g (JS.index l i).
Proof.
  unfold JS.index. destruct (i <? 0); [reflexivity|].
  apply nth_error_map.
Qed.

Lemma S_lookup_numeric (st : S.State) (hist : list Sample) (time : Z) :
  S.priceHistory st = map S.period hist ->
  S.getHistoricalPrice st (Int time) =
    match find nonzero hist with
    | None => Throw EmptySeriesError
    | Some firstPrice =>
        if after time firstPrice then Throw BeforeLookbackWindowError
        else
          let matchedIndex := findIndex (after time) hist in
          match (if 0 <? matchedIndex then JS.index hist (matchedIndex - 1) else None) with
          | None => current_or_missing (S.currentPrice st)
          | Some m => Ok (price_of m)
          end
    end.
Proof.
  intros H. unfold S.getHistoricalPrice. rewrite H.
  rewrite find_map, findIndex_map.
  rewrite (find_ext _ nonzero) by (intros x; apply truthy_number_Int).
  rewrite (findIndex_ext _ (after time)) by (intros x; apply lt_Int).
  assert (E : forall f, lt (Int time) (S.date (S.period f)) = after time f)
    by (intros f; apply lt_Int).
  destruct (S.lastUpdateTime st); cbn [of_field];
    (destruct (find nonzero hist) as [f|]; cbn [option_map]; [|reflexivity]);
    rewrite E;
    (destruct (after time f); [reflexivity|]);
    cbv zeta;
    (destruct (0 <? findIndex (after time) hist); [|reflexivity]);
    rewrite index_map;
    now destruct (JS.index hist (findIndex (after time) hist - 1)).
Qed.

(** On an ordered series, a query after sample [a] passes the check against
    the first valid period as soon as [a] has a valid date. *)
Lemma first_valid_not_after (l1 : list Sample) (a : Sample) (r : list Sample) (time : Z) :
  ordered (l1 ++ a :: r) -> timestamp a <> 0 -> timestamp a <= time ->
  exists f, find nonzero (l1 ++ a :: r) = Some f /\ after time f = false.
Proof.
  intros Hord Ha Hle.
  destruct (ordered_around _ _ _ Hord) as [Hbefore _].
  destruct (find_upto nonzero l1 a r) as (f & Hf & Hin).
  { unfold nonzero. now apply negb_true_iff, Z.eqb_neq. }
  exists f. split; [assumption|].
  apply Z.ltb_ge.
  destruct Hin as [Hin| ->]; [|assumption].
  rewrite Forall_forall in Hbefore. specialize (Hbefore f Hin).
  cbv beta in Hbefore. lia.
Qed.

(** On an ordered series, a query at or after sample [a] passes the check
    against the first valid period as soon as a sample up to [a] has a valid
    date. *)
Lemma first_valid_upto (l1 : list Sample) (a : Sample) (r : list Sample) (time : Z) :
  ordered (l1 ++ a :: r) ->
  (exists s, In s (l1 ++ [a]) /\ timestamp s <> 0) ->
  timestamp a <= time ->
  exists f, find nonzero (l1 ++ a :: r) = Some f /\ after time f = false.
Proof.
  intros Hord (s & Hin & Hs) Hle.
  destruct (ordered_around _ _ _ Hord) as [Hbefore _].
  assert (Hup : forall f, In f (l1 ++ [a]) -> timestamp f <= timestamp a).
  { intros f Hf. apply in_app_or in Hf. destruct Hf as [Hf|[<-|[]]]; [|lia].
    rewrite Forall_forall in Hbefore. exact (Hbefore f Hf). }
  destruct (find_some_of_exists nonzero (l1 ++ [a])) as (f & Hf & Hfin & _).
  { exists s. split; [assumption|]. now apply negb_true_iff, Z.eqb_neq. }
  exists f. split.
  - replace (l1 ++ a :: r) with ((l1 ++ [a]) ++ r)
      by (rewrite <- app_assoc; reflexivity).
    clear - Hf. induction (l1 ++ [a]) as [|x l IH]; [discriminate|].
    simpl in *. destruct (nonzero x); [assumption|now apply IH].
  - apply Z.ltb_ge. specialize (Hup f Hfin). lia.
Qed.

(** The first sample after a query time that falls between [a] and [b]. *)
Lemma none_after_prefix (l1 : list Sample) (a b : Sample) (l2 : list Sample) (time : Z) :
  ordered (l1 ++ a :: b :: l2) -> timestamp a < time ->
  Forall (fun y => after time y = false) (l1 ++ [a]).
Proof.
  intros Hord Hlt.
  destruct (ordered_around _ _ _ Hord) as [Hbefore _].
  apply Forall_app; split.
  - eapply Forall_impl; [|exact Hbefore].
    intros y Hy. apply Z.ltb_ge. cbv beta in Hy. lia.
  - constructor; [|constructor]. apply Z.ltb_ge. lia.
Qed.

(** ** Historical prices *)

Lemma between_first_after (l1 : list Sample) (a b : Sample) (l2 : list Sample) (time : Z) :
  ordered (l1 ++ a :: b :: l2) -> timestamp a < time < timestamp b ->
  find (after time) (l1 ++ a :: b :: l2) = Some b
  /\ findIndex (after time) (l1 ++ a :: b :: l2) = Z.of_nat (List.length l1) + 1.
Proof.
  intros Hord [Ha Hb].
  pose proof (none_after_prefix _ _ _ _ _ Hord Ha) as Hpre.
  assert (Hb' : after time b = true) by (apply Z.ltb_lt; exact Hb).
  replace (l1 ++ a :: b :: l2) with ((l1 ++ [a]) ++ b :: l2)
    by (rewrite <- app_assoc; reflexivity).
  split.
  - now apply find_after.
  - rewrite findIndex_after by assumption.
    rewrite length_app; simpl. lia.
Qed.

(** C1, as amended.  TwelveData feed (rule A): on a series ordered from the
    oldest to the newest, for a query time strictly between the timestamps of
    two consecutive samples [a] and [b], where some sample up to and
    including [a] has a timestamp that is not 0, [b] is the first sample
    whose timestamp exceeds the time and [getHistoricalPrice] returns the
    price of [b]. *)
Theorem rule_a_next_sample
    (st : T.State) (l1 : list Sample) (a b : Sample) (l2 : list Sample) (time : Z) :
  T.priceHistory st = map T.period (l1 ++ a :: b :: l2) ->
  ordered (l1 ++ a :: b :: l2) ->
  (exists s, In s (l1 ++ [a]) /\ timestamp s <> 0) ->
  timestamp a < time < timestamp b ->
  find (after time) (l1 ++ a :: b :: l2) = Some b
  /\ T.getHistoricalPrice st (Int time) = Ok (price_of b).
Proof.
  intros Hst Hord Hvalid Hbetween.
  destruct (between_first_after _ _ _ _ _ Hord Hbetween) as [Hfind _].
  split; [assumption|].
  rewrite (T_lookup_numeric _ _ _ Hst).
  destruct (first_valid_upto l1 a (b :: l2) time Hord Hvalid) as (f & -> & ->); [lia|].
  now rewrite Hfind.
Qed.

Lemma ordered_scenario : ordered scenario.
Proof. repeat constructor; simpl; lia. Qed.

(** Rule A on the scenario: [getHistoricalPrice(150)] is 20. *)
Lemma rule_a_next_sample_scenario :
  T.getHistoricalPrice scenario_a (Int 150) = Ok 20.
Proof.
  apply (rule_a_next_sample scenario_a [] (100, 10) (200, 20) [(300, 30)] 150).
  - reflexivity.
  - exact ordered_scenario.
  - exists (100, 10). split; [left; reflexivity|discriminate].
  - unfold timestamp; simpl; lia.
Defined.

(** A sample dated 0 in the middle does no harm when an earlier one is
    valid: on [(-10,5); (0,10); (10,20)] the time 5 gets the price 20. *)
Lemma rule_a_next_sample_after_epoch (st : T.State) :
  T.priceHistory st = map T.period [(-10, 5); (0, 10); (10, 20)] ->
  T.getHistoricalPrice st (Int 5) = Ok 20.
Proof.
  intros Hst. rewrite (T_lookup_numeric _ _ _ Hst). reflexivity.
Qed.

(** A response whose first record is dated 0 leaves the series
    [(0,1000); (10,2000); (20,3000)], and the time 5 then throws. *)
Lemma rule_a_from_epoch_through_update :
  let cfg := {| T.index := "URTH"; T.apiKey := "key"; T.lookback := 345600;
                T.priceFeedDecimals := 2; T.minTimeBetweenUpdates := 43200 |} in
  let net : Networker T.Response :=
    fun _ => Ok (T.Values [ {| T.datetime := VNum (Int 0); T.close := "10" |};
                            {| T.datetime := VNum (Int 10); T.close := "20" |};
                            {| T.datetime := VNum (Int 20); T.close := "30" |} ]) in
  let st := T.state (T.update "url" cfg net 1000 T.initial) in
  T.priceHistory st = map T.period [(0, 1000); (10, 2000); (20, 3000)]
  /\ T.getHistoricalPrice st (Int 5) = Throw BeforeLookbackWindowError.
Proof. split; reflexivity. Qed.

Lemma ordered_from_epoch : ordered from_epoch.
Proof. repeat constructor; simpl; lia. Qed.

(** C1 fails as stated: on the ordered series [(0,10); (10,20); (20,30)] the
    time 5 lies strictly between the first two timestamps, and the lookup
    throws instead of returning 20: the period dated 0 is passed over when
    the first valid period is chosen, so the time is measured against the
    period dated 10. *)
Lemma rule_a_fails_from_epoch :
  ~ (forall (st : T.State) (l1 : list Sample) (a b : Sample) (l2 : list Sample) (time : Z),
        T.priceHistory st = map T.period (l1 ++ a :: b :: l2) ->
        ordered (l1 ++ a :: b :: l2) ->
        timestamp a < time < timestamp b ->
        T.getHistoricalPrice st (Int time) = Ok (price_of b)).
Proof.
  intros H.
  specialize (H {| T.priceHistory := map T.period from_epoch;
                   T.currentPrice := Some 30;
                   T.lastUpdateTime := Some 1000 |}
                [] (0, 10) (10, 20) [(20, 30)] 5 eq_refl ordered_from_epoch).
  assert (E : timestamp (0, 10) < 5 < timestamp (10, 20)) by (unfold timestamp; simpl; lia).
  specialize (H E). vm_compute in H. discriminate H.
Qed.

Lemma all_before_newest (hist : list Sample) (newest : Sample) (time : Z) :
  ordered (hist ++ [newest]) -> timestamp newest <= time ->
  Forall (fun s => after time s = false) (hist ++ [newest]).
Proof.
  intros Hord Hle.
  destruct (ordered_around _ _ _ Hord) as [Hbefore _].
  apply Forall_app; split.
  - eapply Forall_impl; [|exact Hbefore].
    intros y Hy. apply Z.ltb_ge. cbv beta in Hy. lia.
  - constructor; [|constructor]. apply Z.ltb_ge. exact Hle.
Qed.

Lemma first_valid_exists (hist : list Sample) :
  (exists s, In s hist /\ timestamp s <> 0) ->
  exists f, find nonzero hist = Some f /\ In f hist.
Proof.
  intros (s & Hin & Hs).
  destruct (find_some_of_exists nonzero hist) as (f & Hf & Hfin & _).
  - exists s. split; [assumption|]. now apply negb_true_iff, Z.eqb_neq.
  - eauto.
Qed.

(** C4, as amended.  Both feeds: on a series ordered from the oldest to the
    newest in which some timestamp is not 0, for a query time at or after the
    timestamp of the newest sample, [getHistoricalPrice] returns what
    [getCurrentPrice] returns, and throws the missing-current-price error
    when that is [null]. *)
Theorem at_or_after_newest_is_current
    (hist : list Sample) (newest : Sample) (time : Z) :
  ordered (hist ++ [newest]) ->
  (exists s, In s (hist ++ [newest]) /\ timestamp s <> 0) ->
  timestamp newest <= time ->
  (forall st : T.State,
      T.priceHistory st = map T.period (hist ++ [newest]) ->
      T.getHistoricalPrice st (Int time) = current_or_missing (T.getCurrentPrice st))
  /\
  (forall st : S.State,
      S.priceHistory st = map S.period (hist ++ [newest]) ->
      S.getHistoricalPrice st (Int time) = current_or_missing (S.getCurrentPrice st)).
Proof.
  intros Hord Hvalid Hle.
  pose proof (all_before_newest _ _ _ Hord Hle) as Hall.
  destruct (first_valid_exists _ Hvalid) as (f & Hf & Hin).
  assert (Hff : after time f = false)
    by (rewrite Forall_forall in Hall; exact (Hall f Hin)).
  split; intros st Hst.
  - rewrite (T_lookup_numeric _ _ _ Hst), Hf, Hff.
    now rewrite (find_none_all _ _ Hall).
  - rewrite (S_lookup_numeric _ _ _ Hst), Hf, Hff.
    cbv zeta. now rewrite (findIndex_none _ _ Hall).
Qed.

Lemma at_or_after_newest_scenario :
  T.getHistoricalPrice scenario_a (Int 300) = Ok 30
  /\ S.getHistoricalPrice scenario_b (Int 300) = Ok 30.
Proof.
  assert (Hord : ordered ([(100, 10); (200, 20)] ++ [(300, 30)])) by exact ordered_scenario.
  assert (Hvalid : exists s, In s ([(100, 10); (200, 20)] ++ [(300, 30)]) /\ timestamp s <> 0).
  { exists (100, 10). split; [left; reflexivity|discriminate]. }
  assert (Hle : timestamp (300, 30) <= 300) by (unfold timestamp; simpl; lia).
  destruct (at_or_after_newest_is_current _ _ 300 Hord Hvalid Hle) as [HT HS].
  split; [exact (HT scenario_a eq_refl)|exact (HS scenario_b eq_refl)].
Defined.

(** C4 fails as stated: the one-sample series [(0,10)] is not empty and
    ordered, the time 5 is after its newest timestamp and the current price
    is 10, yet both lookups throw the no-valid-period error. *)
Lemma at_or_after_newest_fails_at_epoch :
  ~ (forall (hist : list Sample) (newest : Sample) (time : Z),
        ordered (hist ++ [newest]) ->
        timestamp newest <= time ->
        forall st : T.State,
          T.priceHistory st = map T.period (hist ++ [newest]) ->
          T.getHistoricalPrice st (Int time) = current_or_missing (T.getCurrentPrice st))
  /\
  ~ (forall (hist : list Sample) (newest : Sample) (time : Z),
        ordered (hist ++ [newest]) ->
        timestamp newest <= time ->
        forall st : S.State,
          S.priceHistory st = map S.period (hist ++ [newest]) ->
          S.getHistoricalPrice st (Int time) = current_or_missing (S.getCurrentPrice st)).
Proof.
  assert (Hord : ordered ([] ++ [(0, 10)])) by (repeat constructor).
  assert (Hle : timestamp (0, 10) <= 5) by (unfold timestamp; simpl; lia).
  split; intros H.
  - specialize (H [] (0, 10) 5 Hord Hle
                  {| T.priceHistory := map T.period [(0, 10)];
                     T.currentPrice := Some 10;
                     T.lastUpdateTime := Some 1000 |} eq_refl).
    vm_compute in H. discriminate H.
  - specialize (H [] (0, 10) 5 Hord Hle
                  {| S.priceHistory := map S.period [(0, 10)];
                     S.currentPrice := Some 10;
                     S.lastUpdateTime := Some 1000 |} eq_refl).
    vm_compute in H. discriminate H.
Qed.

(** C7, as amended.  Both feeds: on a series in which some timestamp is not
    0, for a query time strictly less than the timestamp of every sample (so
    less than the earliest one), [getHistoricalPrice] throws the
    before-lookback-window error. *)
Theorem before_earliest_sample_fails (hist : list Sample) (time : Z) :
  (exists s, In s hist /\ timestamp s <> 0) ->
  Forall (fun s => time < timestamp s) hist ->
  (forall st : T.State,
      T.priceHistory st = map T.period hist ->
      T.getHistoricalPrice st (Int time) = Throw BeforeLookbackWindowError)
  /\
  (forall st : S.State,
      S.priceHistory st = map S.period hist ->
      S.getHistoricalPrice st (Int time) = Throw BeforeLookbackWindowError).
Proof.
  intros Hvalid Hall.
  destruct (first_valid_exists _ Hvalid) as (f & Hf & Hin).
  assert (Hff : after time f = true).
  { rewrite Forall_forall in Hall. apply Z.ltb_lt. exact (Hall f Hin). }
  split; intros st Hst.
  - now rewrite (T_lookup_numeric _ _ _ Hst), Hf, Hff.
  - now rewrite (S_lookup_numeric _ _ _ Hst), Hf, Hff.
Qed.

Lemma before_earliest_sample_scenario :
  T.getHistoricalPrice scenario_a (Int 99) = Throw BeforeLookbackWindowError
  /\ S.getHistoricalPrice scenario_b (Int 99) = Throw BeforeLookbackWindowError.
Proof.
  assert (Hvalid : exists s, In s scenario /\ timestamp s <> 0).
  { exists (100, 10). split; [left; reflexivity|discriminate]. }
  assert (Hall : Forall (fun s => 99 < timestamp s) scenario).
  { repeat constructor; unfold timestamp; simpl; lia. }
  destruct (before_earliest_sample_fails scenario 99 Hvalid Hall) as [HT HS].
  split; [exact (HT scenario_a eq_refl)|exact (HS scenario_b eq_refl)].
Defined.

(** C7 fails as stated: the series [(0,10)] is not empty and the time -1 is
    before its only timestamp, yet both lookups throw the no-valid-period
    error, not the before-lookback-window error. *)
Lemma before_earliest_sample_fails_at_epoch :
  ~ (forall (hist : list Sample) (time : Z),
        hist <> [] ->
        Forall (fun s => time < timestamp s) hist ->
        forall st : T.State,
          T.priceHistory st = map T.period hist ->
          T.getHistoricalPrice st (Int time) = Throw BeforeLookbackWindowError)
  /\
  ~ (forall (hist : list Sample) (time : Z),
        hist <> [] ->
        Forall (fun s => time < timestamp s) hist ->
        forall st : S.State,
          S.priceHistory st = map S.period hist ->
          S.getHistoricalPrice st (Int time) = Throw BeforeLookbackWindowError).
Proof.
  assert (Hne : [((0, 10) : Sample)] <> []) by discriminate.
  assert (Hall : Forall (fun s : Sample => -1 < timestamp s) [(0, 10)]).
  { repeat constructor. }
  split; intros H.
  - specialize (H [(0, 10)] (-1) Hne Hall
                  {| T.priceHistory := map T.period [(0, 10)];
                     T.currentPrice := Some 10;
                     T.lastUpdateTime := Some 1000 |} eq_refl).
    vm_compute in H. discriminate H.
  - specialize (H [(0, 10)] (-1) Hne Hall
                  {| S.priceHistory := map S.period [(0, 10)];
                     S.currentPrice := Some 10;
                     S.lastUpdateTime := Some 1000 |} eq_refl).
    vm_compute in H. discriminate H.
Qed.

(** ** update *)

Lemma mapM_Forall2 {E A B : Type} (f : A -> result E B) (l : list A) (l' : list B) :
  mapM f l = Ok l' -> Forall2 (fun x y => f x = Ok y) l l'.
Proof.
  revert l'; induction l as [|x l IH]; simpl; intros l' H.
  - injection H as <-. constructor.
  - destruct (f x) as [y|e] eqn:Hx; [|discriminate].
    destruct (mapM f l) as [ys|e]; [|discriminate].
    injection H as <-. constructor; auto.
Qed.

(** A call that is too recent returns at once. *)
Lemma T_update_skipped (url : string) (cfg : T.Config) (net : Networker T.Response)
    (now t : Z) (st : T.State) :
  T.lastUpdateTime st = Some t ->
  t + T.minTimeBetweenUpdates cfg > now ->
  T.update url cfg net now st = {| T.returned := Ok tt; T.state := st; T.requests := [] |}.
Proof.
  intros Ht Hlt. unfold T.update, T.tooRecent. rewrite Ht; cbn [of_field].
  now replace (now <? t + T.minTimeBetweenUpdates cfg) with true
    by (symmetry; apply Z.ltb_lt; lia).
Qed.

Lemma S_update_skipped (secondToDate : Z -> string) (formatDate : string -> string)
    (cfg : S.Config) (net : Networker S.Response) (now t : Z) (st : S.State) :
  S.lastUpdateTime st = Some t ->
  t + S.minTimeBetweenUpdates cfg > now ->
  S.update secondToDate formatDate cfg net now st
  = {| S.returned := Ok tt; S.state := st; S.requests := [] |}.
Proof.
  intros Ht Hlt. unfold S.update, S.tooRecent. rewrite Ht; cbn [of_field].
  now replace (now <? t + S.minTimeBetweenUpdates cfg) with true
    by (symmetry; apply Z.ltb_lt; lia).
Qed.

(** What a call that returned normally after a request left behind. *)
Lemma T_update_refreshed (url : string) (cfg : T.Config) (net : Networker T.Response)
    (now : Z) (st : T.State) :
  T.returned (T.update url cfg net now st) = Ok tt ->
  T.requests (T.update url cfg net now st) <> [] ->
  exists values periods last,
    net url = Ok (T.Values values)
    /\ mapM (T.parsePeriod cfg) values = Ok (periods ++ [last])
    /\ T.update url cfg net now st
       = {| T.returned := Ok tt;
            T.state := {| T.priceHistory := periods ++ [last];
                          T.currentPrice := Some (T.closePrice last);
                          T.lastUpdateTime := Some now |};
            T.requests := [url] |}.
Proof.
  unfold T.update.
  destruct (T.tooRecent cfg st now); [intros _ H; now contradiction H|].
  destruct (net url) as [resp|msg]; [|discriminate].
  destruct resp as [| |[|v vs]]; try discriminate.
  destruct (mapM (T.parsePeriod cfg) (v :: vs)) as [periods|e] eqn:Hmap; [|discriminate].
  intros _ _.
  destruct (exists_last (l := periods)) as (l & x & ->).
  { intros ->. apply mapM_Forall2 in Hmap. inversion Hmap. }
  exists (v :: vs), l, x. rewrite index_last. now repeat split.
Qed.

Lemma S_update_refreshed (secondToDate : Z -> string) (formatDate : string -> string)
    (cfg : S.Config) (net : Networker S.Response) (now : Z) (st : S.State) :
  S.returned (S.update secondToDate formatDate cfg net now st) = Ok tt ->
  S.requests (S.update secondToDate formatDate cfg net now st) <> [] ->
  exists values periods last,
    net (S.url_of secondToDate formatDate cfg now) = Ok (S.Value values)
    /\ mapM (S.parsePeriod cfg) values = Ok (periods ++ [last])
    /\ S.update secondToDate formatDate cfg net now st
       = {| S.returned := Ok tt;
            S.state := {| S.priceHistory := periods ++ [last];
                          S.currentPrice := Some (S.price last);
                          S.lastUpdateTime := Some now |};
            S.requests := [S.url_of secondToDate formatDate cfg now] |}.
Proof.
  unfold S.update.
  destruct (S.tooRecent cfg st now); [intros _ H; now contradiction H|].
  cbv zeta.
  destruct (net (S.url_of secondToDate formatDate cfg now)) as [resp|msg]; [|discriminate].
  destruct resp as [| |[|v vs]]; try discriminate.
  destruct (mapM (S.parsePeriod cfg) (v :: vs)) as [periods|e] eqn:Hmap; [|discriminate].
  intros _ _.
  destruct (exists_last (l := periods)) as (l & x & ->).
  { intros ->. apply mapM_Forall2 in Hmap. inversion Hmap. }
  exists (v :: vs), l, x. rewrite index_last. now repeat split.
Qed.

(** A refresh at [t1], then a call below [t1 + minTimeBetweenUpdates]. *)
Lemma T_update_twice (url : string) (cfg : T.Config) (net1 net2 : Networker T.Response)
    (t1 t2 : Z) (st : T.State) :
  T.returned (T.update url cfg net1 t1 st) = Ok tt ->
  T.requests (T.update url cfg net1 t1 st) <> [] ->
  t1 + T.minTimeBetweenUpdates cfg > t2 ->
  T.update url cfg net2 t2 (T.state (T.update url cfg net1 t1 st))
  = {| T.returned := Ok tt;
       T.state := T.state (T.update url cfg net1 t1 st);
       T.requests := [] |}
  /\ T.requests (T.update url cfg net1 t1 st) = [url].
Proof.
  intros Hok Hreq Hlt.
  destruct (T_update_refreshed _ _ _ _ _ Hok Hreq) as (vs & ps & x & _ & _ & E).
  rewrite E; cbn [T.state T.requests]. split; [|reflexivity].
  now apply T_update_skipped with (t := t1).
Qed.

Lemma S_update_twice (secondToDate : Z -> string) (formatDate : string -> string)
    (cfg : S.Config) (net1 net2 : Networker S.Response) (t1 t2 : Z) (st : S.State) :
  S.returned (S.update secondToDate formatDate cfg net1 t1 st) = Ok tt ->
  S.requests (S.update secondToDate formatDate cfg net1 t1 st) <> [] ->
  t1 + S.minTimeBetweenUpdates cfg > t2 ->
  S.update secondToDate formatDate cfg net2 t2
    (S.state (S.update secondToDate formatDate cfg net1 t1 st))
  = {| S.returned := Ok tt;
       S.state := S.state (S.update secondToDate formatDate cfg net1 t1 st);
       S.requests := [] |}
  /\ S.requests (S.update secondToDate formatDate cfg net1 t1 st)
     = [S.url_of secondToDate formatDate cfg t1].
Proof.
  intros Hok Hreq Hlt.
  destruct (S_update_refreshed _ _ _ _ _ _ Hok Hreq) as (vs & ps & x & _ & _ & E).
  rewrite E; cbn [S.state S.requests]. split; [|reflexivity].
  now apply S_update_skipped with (t := t1).
Qed.

(** C5.  Both feeds: a call of [update] made while [lastUpdateTime] is set
    and [lastUpdateTime + minTimeBetweenUpdates > currentTime] requests
    nothing and leaves the series, the current price and the last update time
    as they were; so a call that refreshed the feed at [t1] followed by a call
    at a time below [t1 + minTimeBetweenUpdates] make one request in all. *)
Theorem update_within_throttle_window :
  (forall (url : string) (cfg : T.Config) (net : Networker T.Response)
          (now t : Z) (st : T.State),
      T.lastUpdateTime st = Some t ->
      t + T.minTimeBetweenUpdates cfg > now ->
      T.update url cfg net now st
      = {| T.returned := Ok tt; T.state := st; T.requests := [] |})
  /\
  (forall (secondToDate : Z -> string) (formatDate : string -> string) (cfg : S.Config)
          (net : Networker S.Response) (now t : Z) (st : S.State),
      S.lastUpdateTime st = Some t ->
      t + S.minTimeBetweenUpdates cfg > now ->
      S.update secondToDate formatDate cfg net now st
      = {| S.returned := Ok tt; S.state := st; S.requests := [] |})
  /\
  (forall (url : string) (cfg : T.Config) (net1 net2 : Networker T.Response)
          (t1 t2 : Z) (st : T.State),
      let first := T.update url cfg net1 t1 st in
      let second := T.update url cfg net2 t2 (T.state first) in
      T.returned first = Ok tt ->
      T.requests first <> [] ->
      t1 + T.minTimeBetweenUpdates cfg > t2 ->
      T.state second = T.state first
      /\ T.requests second = []
      /\ List.length (T.requests first ++ T.requests second) = 1%nat)
  /\
  (forall (secondToDate : Z -> string) (formatDate : string -> string) (cfg : S.Config)
          (net1 net2 : Networker S.Response) (t1 t2 : Z) (st : S.State),
      let first := S.update secondToDate formatDate cfg net1 t1 st in
      let second := S.update secondToDate formatDate cfg net2 t2 (S.state first) in
      S.returned first = Ok tt ->
      S.requests first <> [] ->
      t1 + S.minTimeBetweenUpdates cfg > t2 ->
      S.state second = S.state first
      /\ S.requests second = []
      /\ List.length (S.requests first ++ S.requests second) = 1%nat).
Proof.
  split; [exact T_update_skipped|].
  split; [exact S_update_skipped|].
  split.
  - intros url cfg net1 net2 t1 t2 st first second Hok Hreq Hlt.
    destruct (T_update_twice url cfg net1 net2 t1 t2 st Hok Hreq Hlt) as [E2 E1].
    subst second. fold first in E1, E2. rewrite E2, E1. now repeat split.
  - intros sd fd cfg net1 net2 t1 t2 st first second Hok Hreq Hlt.
    destruct (S_update_twice sd fd cfg net1 net2 t1 t2 st Hok Hreq Hlt) as [E2 E1].
    subst second. fold first in E1, E2. rewrite E2, E1. now repeat split.
Qed.

Lemma update_within_throttle_window_sample :
  (let first := T.update "url" twelve_cfg twelve_net 1676300000 T.initial in
   let second := T.update "url" twelve_cfg twelve_net 1676300060 (T.state first) in
   T.state second = T.state first
   /\ T.requests second = []
   /\ List.length (T.requests first ++ T.requests second) = 1%nat)
  /\
  (let first :=
     S.update any_secondToDate any_formatDate statistics_cfg statistics_net
       1676300000 S.initial in
   let second :=
     S.update any_secondToDate any_formatDate statistics_cfg statistics_net
       1676300060 (S.state first) in
   S.state second = S.state first
   /\ S.requests second = []
   /\ List.length (S.requests first ++ S.requests second) = 1%nat).
Proof.
  destruct update_within_throttle_window as (_ & _ & HT & HS).
  split.
  - apply HT.
    + reflexivity.
    + discriminate.
    + reflexivity.
  - apply HS.
    + reflexivity.
    + discriminate.
    + reflexivity.
Defined.

(** C6.  Both feeds: when the call is not skipped and the response is
    absent, has no array of samples, or has an empty one, [update] throws the
    could-not-parse error with the request URL and the response, after one
    request; the series, the current price and the last update time are those
    of before the call, and so is what [getCurrentPrice] returns. *)
Theorem update_rejects_missing_samples :
  (forall (url : string) (cfg : T.Config) (net : Networker T.Response)
          (now : Z) (st : T.State) (resp : T.Response),
      T.tooRecent cfg st now = false ->
      net url = Ok resp ->
      resp = T.Absent \/ resp = T.NoValues \/ resp = T.Values [] ->
      T.update url cfg net now st
      = {| T.returned := Throw (DataSourceError url resp);
           T.state := st; T.requests := [url] |}
      /\ T.getCurrentPrice (T.state (T.update url cfg net now st)) = T.getCurrentPrice st)
  /\
  (forall (secondToDate : Z -> string) (formatDate : string -> string) (cfg : S.Config)
          (net : Networker S.Response) (now : Z) (st : S.State) (resp : S.Response),
      S.tooRecent cfg st now = false ->
      net (S.url_of secondToDate formatDate cfg now) = Ok resp ->
      resp = S.Absent \/ resp = S.NoValue \/ resp = S.Value [] ->
      S.update secondToDate formatDate cfg net now st
      = {| S.returned := Throw (DataSourceError (S.url_of secondToDate formatDate cfg now) resp);
           S.state := st;
           S.requests := [S.url_of secondToDate formatDate cfg now] |}
      /\ S.getCurrentPrice (S.state (S.update secondToDate formatDate cfg net now st))
         = S.getCurrentPrice st).
Proof.
  split.
  - intros url cfg net now st resp Hrun Hnet Hresp.
    unfold T.update. rewrite Hrun, Hnet.
    destruct Hresp as [-> | [-> | ->]]; split; reflexivity.
  - intros sd fd cfg net now st resp Hrun Hnet Hresp.
    unfold S.update. rewrite Hrun. cbv zeta. rewrite Hnet.
    destruct Hresp as [-> | [-> | ->]]; split; reflexivity.
Qed.

Lemma update_rejects_missing_samples_sample :
  (let o := T.update "url" twelve_cfg (fun _ => Ok (T.Values [])) 1676400000
              twelve_after_sample in
   T.returned o = Throw (DataSourceError "url" (T.Values []))
   /\ T.getCurrentPrice (T.state o) = Some 116640000000000000000)
  /\
  (let o := S.update any_secondToDate any_formatDate statistics_cfg (fun _ => Ok S.Absent)
              1676400000 statistics_after_sample in
   S.returned o
      = Throw (DataSourceError
                 (S.url_of any_secondToDate any_formatDate statistics_cfg 1676400000) S.Absent)
   /\ S.getCurrentPrice (S.state o) = Some 180600000000000000000).
Proof.
  destruct update_rejects_missing_samples as [HT HS].
  split.
  - destruct (HT "url" twelve_cfg (fun _ => Ok (T.Values [])) 1676400000
                twelve_after_sample (T.Values [])) as [E1 E2].
    + reflexivity.
    + reflexivity.
    + right; right; reflexivity.
    + cbv zeta. rewrite E2, E1. split; reflexivity.
  - destruct (HS any_secondToDate any_formatDate statistics_cfg (fun _ => Ok S.Absent)
                1676400000 statistics_after_sample S.Absent) as [E1 E2].
    + reflexivity.
    + reflexivity.
    + left; reflexivity.
    + cbv zeta. rewrite E2, E1. split; reflexivity.
Defined.

(** ** Dates kept as datetime strings *)

Lemma digit_code (c : ascii) :
  is_digit c = true -> (48 <= code c <= 57)%nat.
Proof.
  unfold is_digit. intros H. apply andb_true_iff in H. destruct H as [H1 H2].
  apply Nat.leb_le in H1, H2. lia.
Qed.

Lemma digit_not_space (c : ascii) : is_digit c = true -> is_space c = false.
Proof.
  intros H. apply digit_code in H. unfold is_space.
  destruct (Nat.leb_spec 9 (code c)); destruct (Nat.leb_spec (code c) 13);
    destruct (Nat.eqb_spec (code c) 32); destruct (Nat.eqb_spec (code c) 160);
    simpl; try reflexivity; lia.
Qed.

(** A digit is none of the characters that are not digits. *)
Lemma digit_neq (c d : ascii) :
  is_digit c = true -> is_digit d = false -> Ascii.eqb c d = false.
Proof.
  intros Hc Hd. destruct (Ascii.eqb_spec c d) as [->|]; [congruence|reflexivity].
Qed.

Lemma digit_no_radix (c : ascii) : is_digit c = true -> radix_of c = None.
Proof.
  intros H. apply digit_code in H. unfold radix_of.
  repeat match goal with
         | |- context [(?a =? ?b)%nat] => destruct (Nat.eqb_spec a b); [lia|]
         end.
  reflexivity.
Qed.

Lemma trim_start_nonspace (c : ascii) (s : list ascii) :
  is_space c = false -> trim_start (c :: s) = c :: s.
Proof. intros H. simpl. now rewrite H. Qed.

Lemma trim_end_nonspace (s : list ascii) (c : ascii) :
  is_space c = false -> trim_end (s ++ [c]) = s ++ [c].
Proof.
  intros H. induction s as [|x s IH]; simpl.
  - now rewrite H.
  - rewrite IH. now destruct s.
Qed.

(** Four digits and a dash do not start a numeric literal. *)
Lemma year_dash_not_numeric (y1 y2 y3 y4 : ascii) (rest : list ascii) :
  is_digit y1 = true -> is_digit y2 = true -> is_digit y3 = true -> is_digit y4 = true ->
  numeric_literal (y1 :: y2 :: y3 :: y4 :: "-"%char :: rest) = NaN.
Proof.
  intros H1 H2 H3 H4.
  unfold numeric_literal.
  rewrite (digit_neq y1 "+"), (digit_neq y1 "-") by (assumption || reflexivity).
  rewrite (digit_no_radix y2 H2).
  replace (if Ascii.eqb y1 "0" then None else None) with (@None Z)
    by (now destruct (Ascii.eqb y1 "0")).
  unfold unsigned_decimal.
  replace (list_ascii_eqb (y1 :: y2 :: y3 :: y4 :: "-"%char :: rest) Infinity_lit)
    with false.
  2:{ unfold list_ascii_eqb, Infinity_lit. cbn [list_ascii_of_string string_of_list_ascii String.eqb].
      now rewrite (digit_neq y1 "I") by (assumption || reflexivity). }
  cbn [take_digits]. rewrite H1, H2, H3, H4.
  replace (is_digit "-") with false by reflexivity.
  cbn [Ascii.eqb Bool.eqb]. cbn [Nat.add Nat.eqb].
  reflexivity.
Qed.

Lemma datetime_not_numeric (s : string) :
  is_datetime s = true -> StringToNumber s = NaN /\ s <> "".
Proof.
  unfold is_datetime, StringToNumber.
  destruct (list_ascii_of_string s) as [|y1 [|y2 [|y3 [|y4 [|d1 l]]]]] eqn:E;
    try discriminate.
  assert (Hs : s <> "") by (intros ->; discriminate E).
  do 14 (destruct l as [|? l]; try discriminate).
  destruct l; [|discriminate].
  intros H. do 5 (apply andb_true_iff in H; destruct H as [H ?]).
  cbn [forallb] in H. do 14 (apply andb_true_iff in H; destruct H as [? H]).
  repeat match goal with
         | Hx : Ascii.eqb _ _ = true |- _ => apply Ascii.eqb_eq in Hx; subst
         end.
  split; [|assumption].
  rewrite trim_start_nonspace by now apply digit_not_space.
  match goal with
  | |- context [trim_end (?a :: ?b :: ?c :: ?d :: ?e :: ?f :: ?g :: ?h :: ?i :: ?j :: ?k
                           :: ?l :: ?m :: ?n :: ?o :: ?p :: ?q :: ?r :: [?z])] =>
      change (a :: b :: c :: d :: e :: f :: g :: h :: i :: j :: k
                :: l :: m :: n :: o :: p :: q :: r :: [z])
        with ([a; b; c; d; e; f; g; h; i; j; k; l; m; n; o; p; q; r] ++ [z]);
      rewrite (trim_end_nonspace _ z) by now apply digit_not_space
  end.
  now apply year_dash_not_numeric.
Qed.

Lemma lt_NaN (x : number) : lt x NaN = false.
Proof. now destruct x. Qed.

Lemma T_parsePeriod_date (cfg : T.Config) (d : T.DailyData) (p : T.PricePeriod) :
  T.parsePeriod cfg d = Ok p ->
  T.date p = T.datetime d /\ T.convertPriceFeedDecimals cfg (T.close d) = Ok (T.closePrice p).
Proof.
  unfold T.parsePeriod.
  destruct (T.convertPriceFeedDecimals cfg (T.close d)); [|discriminate].
  intros H; injection H as <-. split; reflexivity.
Qed.

Lemma T_parsed_dates (cfg : T.Config) (values : list T.DailyData) (periods : list T.PricePeriod) :
  mapM (T.parsePeriod cfg) values = Ok periods ->
  map T.date periods = map T.datetime values.
Proof.
  intros H. apply mapM_Forall2 in H.
  induction H as [|d p values periods Hp _ IH]; simpl; [reflexivity|].
  apply T_parsePeriod_date in Hp. destruct Hp as [-> _]. now rewrite IH.
Qed.

(** C10.  TwelveData feed: a refresh stores in each period's [date] the
    [datetime] of the response as it came; when these are datetime strings,
    [time < date] is false for every period and every number [time], and from
    then on [getHistoricalPrice] never throws the before-lookback-window
    error and returns the current price for every number [time]. *)
Theorem datetime_dates_resolve_to_current
    (url : string) (cfg : T.Config) (net : Networker T.Response) (now : Z) (st : T.State)
    (values : list T.DailyData) :
  net url = Ok (T.Values values) ->
  Forall (fun d => exists s, T.datetime d = VStr s /\ is_datetime s = true) values ->
  T.returned (T.update url cfg net now st) = Ok tt ->
  T.requests (T.update url cfg net now st) <> [] ->
  let st' := T.state (T.update url cfg net now st) in
  map T.date (T.priceHistory st') = map T.datetime values
  /\ (forall (time : number) (p : T.PricePeriod),
         In p (T.priceHistory st') -> lt_val time (T.date p) = false)
  /\ (forall time : number,
         T.getHistoricalPrice st' time <> Throw BeforeLookbackWindowError)
  /\ (forall time : number,
         exists price, T.getCurrentPrice st' = Some price
                       /\ T.getHistoricalPrice st' time = Ok price).
Proof.
  intros Hnet Hdt Hok Hreq st'.
  destruct (T_update_refreshed _ _ _ _ _ Hok Hreq) as (vs & ps & x & Hnet' & Hmap & E).
  rewrite Hnet in Hnet'. injection Hnet' as <-.
  subst st'. rewrite E. cbn [T.state T.priceHistory].
  pose proof (T_parsed_dates _ _ _ Hmap) as Hdates.
  assert (Hstr : forall p, In p (ps ++ [x]) ->
                   exists s, T.date p = VStr s /\ is_datetime s = true).
  { intros p Hp. apply (in_map T.date) in Hp. rewrite Hdates in Hp.
    apply in_map_iff in Hp. destruct Hp as (d & Hd & Hin).
    rewrite Forall_forall in Hdt. destruct (Hdt d Hin) as (s & Hs & Hfmt).
    exists s. split; congruence. }
  assert (Hlt : forall time p, In p (ps ++ [x]) -> lt_val time (T.date p) = false).
  { intros time p Hp. destruct (Hstr p Hp) as (s & -> & Hfmt).
    unfold lt_val; cbn [ToNumber].
    destruct (datetime_not_numeric s Hfmt) as [-> _]. apply lt_NaN. }
  assert (Hget : forall time,
             T.getHistoricalPrice
               {| T.priceHistory := ps ++ [x];
                  T.currentPrice := Some (T.closePrice x);
                  T.lastUpdateTime := Some now |} time
             = Ok (T.closePrice x)).
  { intros time. unfold T.getHistoricalPrice; cbn [T.lastUpdateTime T.priceHistory
                                                    T.currentPrice of_field].
    destruct (find_some_of_exists (fun p => truthy (T.date p)) (ps ++ [x]))
      as (f & -> & Hf & _).
    { exists x. split; [apply in_elt|].
      destruct (Hstr x (in_elt x ps [])) as (s & -> & Hfmt).
      cbn [truthy]. apply negb_true_iff, String.eqb_neq.
      now destruct (datetime_not_numeric s Hfmt). }
    rewrite (Hlt time f Hf).
    rewrite (find_none_all (fun p => lt_val time (T.date p)) (ps ++ [x])); [reflexivity|].
    apply Forall_forall. intros p Hp. now apply Hlt. }
  split; [assumption|]. split; [assumption|]. split.
  - intros time. rewrite Hget. discriminate.
  - intros time. exists (T.closePrice x). split; [reflexivity|apply Hget].
Qed.

Lemma twelve_sample_datetimes :
  Forall (fun d => exists s, T.datetime d = VStr s /\ is_datetime s = true)
    twelve_sample_values.
Proof.
  repeat constructor; eexists; split; reflexivity.
Qed.

Lemma datetime_dates_resolve_to_current_sample :
  map T.date (T.priceHistory twelve_after_sample)
  = [VStr "2023-02-10 15:30:00"; VStr "2023-02-10 14:30:00"]
  /\ T.getHistoricalPrice twelve_after_sample (Int 0) = Ok 116640000000000000000
  /\ T.getHistoricalPrice twelve_after_sample (Int 1676042000) = Ok 116640000000000000000
  /\ T.getHistoricalPrice twelve_after_sample (Int 4102444800) = Ok 116640000000000000000.
Proof.
  assert (Hnet : twelve_net "url" = Ok (T.Values twelve_sample_values)) by reflexivity.
  assert (Hok : T.returned (T.update "url" twelve_cfg twelve_net 1676300000 T.initial) = Ok tt)
    by reflexivity.
  assert (Hreq : T.requests (T.update "url" twelve_cfg twelve_net 1676300000 T.initial) <> [])
    by discriminate.
  destruct (datetime_dates_resolve_to_current "url" twelve_cfg twelve_net 1676300000
              T.initial twelve_sample_values Hnet twelve_sample_datetimes Hok Hreq)
    as (Hdates & _ & _ & Hcur).
  split; [exact Hdates|].
  assert (Hall : forall time, T.getHistoricalPrice twelve_after_sample time
                              = Ok 116640000000000000000).
  { intros time. destruct (Hcur time) as (price & Hp & Hget).
    unfold twelve_after_sample. rewrite Hget. f_equal.
    assert (Hc : T.getCurrentPrice
                   (T.state (T.update "url" twelve_cfg twelve_net 1676300000 T.initial))
                 = Some 116640000000000000000) by reflexivity.
    congruence. }
  repeat split; apply Hall.
Defined.

(** ** The feed that never updated *)

(** C8, on the code.  Both feeds: on the fields the constructor leaves,
    [getHistoricalPrice] throws the no-valid-period error for every time, not
    the undefined-lastUpdateTime error: [lastUpdateTime] starts as [null], and
    the guard asks whether it is [undefined]. *)
Theorem never_updated_feed_has_no_valid_period (time : number) :
  T.getHistoricalPrice T.initial time = Throw EmptySeriesError
  /\ S.getHistoricalPrice S.initial time = Throw EmptySeriesError.
Proof. split; reflexivity. Qed.

(** No state makes the guard on [lastUpdateTime] fire. *)
Lemma uninitialized_error_never_thrown :
  (forall (st : T.State) (time : number),
      T.getHistoricalPrice st time <> Throw UninitializedFeedError)
  /\ (forall (st : S.State) (time : number),
         S.getHistoricalPrice st time <> Throw UninitializedFeedError).
Proof.
  split; intros st time.
  - unfold T.getHistoricalPrice.
    destruct (T.lastUpdateTime st); cbn [of_field];
      repeat match goal with
             | |- context [match ?x with _ => _ end] => destruct x
             end; discriminate.
  - unfold S.getHistoricalPrice.
    destruct (S.lastUpdateTime st); cbn [of_field];
      repeat match goal with
             | |- context [match ?x with _ => _ end] => destruct x
             end; discriminate.
Qed.

(** ** The current price after a refresh *)

(** After a refresh the current price is the price of the last period of the
    stored series. *)
Lemma current_price_is_last_stored :
  (forall (url : string) (cfg : T.Config) (net : Networker T.Response) (now : Z) (st : T.State),
      T.returned (T.update url cfg net now st) = Ok tt ->
      T.requests (T.update url cfg net now st) <> [] ->
      exists periods last,
        T.priceHistory (T.state (T.update url cfg net now st)) = periods ++ [last]
        /\ T.getCurrentPrice (T.state (T.update url cfg net now st))
           = Some (T.closePrice last))
  /\
  (forall (secondToDate : Z -> string) (formatDate : string -> string) (cfg : S.Config)
          (net : Networker S.Response) (now : Z) (st : S.State),
      S.returned (S.update secondToDate formatDate cfg net now st) = Ok tt ->
      S.requests (S.update secondToDate formatDate cfg net now st) <> [] ->
      exists periods last,
        S.priceHistory (S.state (S.update secondToDate formatDate cfg net now st))
        = periods ++ [last]
        /\ S.getCurrentPrice (S.state (S.update secondToDate formatDate cfg net now st))
           = Some (S.price last)).
Proof.
  split.
  - intros url cfg net now st Hok Hreq.
    destruct (T_update_refreshed _ _ _ _ _ Hok Hreq) as (vs & ps & x & _ & _ & E).
    exists ps, x. rewrite E. split; reflexivity.
  - intros sd fd cfg net now st Hok Hreq.
    destruct (S_update_refreshed _ _ _ _ _ _ Hok Hreq) as (vs & ps & x & _ & _ & E).
    exists ps, x. rewrite E. split; reflexivity.
Qed.

(** The last sample of an ordered series has the greatest timestamp. *)
Lemma last_is_newest (hist : list Sample) (newest : Sample) :
  ordered (hist ++ [newest]) ->
  forall s, In s (hist ++ [newest]) -> timestamp s <= timestamp newest.
Proof.
  intros Hord s Hin.
  destruct (ordered_around _ _ _ Hord) as [Hbefore _].
  apply in_app_or in Hin. destruct Hin as [Hin|[<-|[]]]; [|lia].
  rewrite Forall_forall in Hbefore. exact (Hbefore s Hin).
Qed.

(** The refresh of the Statistics Netherlands feed on its sample response:
    the periods are dated the 22nd, 02:00 UTC, of February and March 2023,
    and the current price is the price of the later one. *)
Lemma statistics_refresh_on_sample :
  S.priceHistory statistics_after_sample
  = [ {| S.date := Int 1677031200; S.price := 183300000000000000000 |};
      {| S.date := Int 1679450400; S.price := 180600000000000000000 |} ]
  /\ S.getCurrentPrice statistics_after_sample = Some 180600000000000000000
  /\ S.getLastUpdateTime statistics_after_sample = Some 1676300000.
Proof. repeat split. Qed.

(** C3, on the code.  TwelveData feed: the response lists its records from
    the newest to the oldest, as the sample response quoted in [update] does;
    the refresh keeps that order and takes the last period as the current
    price, which on the sample is the close of 14:30, not the close of
    15:30. *)
Theorem twelve_current_price_is_oldest_close (url : string) (now : Z) :
  let out := T.update url twelve_cfg twelve_net now T.initial in
  T.returned out = Ok tt
  /\ T.priceHistory (T.state out)
     = [ {| T.date := VStr "2023-02-10 15:30:00"; T.closePrice := 116840000000000000000 |};
         {| T.date := VStr "2023-02-10 14:30:00"; T.closePrice := 116640000000000000000 |} ]
  /\ String.ltb "2023-02-10 14:30:00" "2023-02-10 15:30:00" = true
  /\ T.getCurrentPrice (T.state out) = Some 116640000000000000000.
Proof. repeat split. Qed.

(** ** Conversion to fixed decimals *)


Lemma split_dot_digits (w : list ascii) :
  forallb is_digit w = true -> Fixed.split_dot w = (w, None).
Proof.
  induction w as [|c w IH]; simpl; [reflexivity|].
  intros H. apply andb_true_iff in H. destruct H as [Hc Hw].
  unfold Fixed.is_dot. rewrite (digit_neq c ".") by (assumption || reflexivity).
  now rewrite (IH Hw).
Qed.

Lemma parseFixed_digits (w : list ascii) (decimals : Z) :
  0 <= decimals <= 256 -> w <> [] -> forallb is_digit w = true ->
  Fixed.parseFixed (string_of_list_ascii w) decimals
  = Ok (Fixed.digits_value w * 10 ^ decimals).
Proof.
  intros Hd Hw Hdigits. unfold Fixed.parseFixed.
  replace ((decimals <? 0) || (256 <? decimals)) with false.
  2:{ symmetry. apply orb_false_iff. split; apply Z.ltb_ge; lia. }
  rewrite list_ascii_of_string_of_list_ascii.
  destruct w as [|c w]; [now contradiction Hw|].
  assert (Hc : is_digit c = true) by (simpl in Hdigits; now apply andb_true_iff in Hdigits).
  rewrite (digit_neq c "-") by (assumption || reflexivity).
  replace (forallb (fun c0 => is_digit c0 || Fixed.is_dot c0) (c :: w)) with true.
  2:{ symmetry. apply forallb_forall. intros x Hx.
      rewrite forallb_forall in Hdigits. now rewrite (Hdigits x Hx). }
  cbn [negb]. rewrite (split_dot_digits _ Hdigits).
  f_equal. lia.
Qed.

Lemma substring0_prefix (w rest : list ascii) :
  substring0 (Z.of_nat (List.length w)) (string_of_list_ascii (w ++ rest))
  = string_of_list_ascii w.
Proof.
  unfold substring0. rewrite Nat2Z.id.
  induction w as [|c w IH]; simpl.
  - now destruct (string_of_list_ascii rest).
  - now rewrite IH.
Qed.

(** When the first [priceFeedDecimals] characters are all digits, whatever
    follows them, further digits of the integer part included, is dropped. *)
Lemma conversion_of_long_integer_part :
  (forall (cfg : T.Config) (w rest : list ascii),
      T.priceFeedDecimals cfg = Z.of_nat (List.length w) ->
      w <> [] -> (List.length w <= 256)%nat -> forallb is_digit w = true ->
      T.convertPriceFeedDecimals cfg (string_of_list_ascii (w ++ rest))
      = Ok (Fixed.digits_value w * 10 ^ T.priceFeedDecimals cfg))
  /\
  (forall (cfg : S.Config) (w rest : list ascii),
      S.priceFeedDecimals cfg = Z.of_nat (List.length w) ->
      w <> [] -> (List.length w <= 256)%nat -> forallb is_digit w = true ->
      S.convertPriceFeedDecimals cfg (string_of_list_ascii (w ++ rest))
      = Ok (Fixed.digits_value w * 10 ^ S.priceFeedDecimals cfg)).
Proof.
  split; intros cfg w rest Hd Hw Hlen Hdigits.
  - unfold T.convertPriceFeedDecimals. rewrite Hd, substring0_prefix.
    apply parseFixed_digits; [lia|assumption|assumption].
  - unfold S.convertPriceFeedDecimals. rewrite Hd, substring0_prefix.
    apply parseFixed_digits; [lia|assumption|assumption].
Qed.



(** ** More on update *)

(** Every way [update] can end, for the TwelveData feed. *)
Lemma T_update_cases (url : string) (cfg : T.Config) (net : Networker T.Response)
    (now : Z) (st : T.State) :
  (T.tooRecent cfg st now = true
   /\ T.update url cfg net now st
      = {| T.returned := Ok tt; T.state := st; T.requests := [] |})
  \/ (T.tooRecent cfg st now = false
      /\ exists e, T.update url cfg net now st
                   = {| T.returned := Throw e; T.state := st; T.requests := [url] |})
  \/ (T.tooRecent cfg st now = false
      /\ exists periods last,
           T.update url cfg net now st
           = {| T.returned := Ok tt;
                T.state := {| T.priceHistory := periods ++ [last];
                              T.currentPrice := Some (T.closePrice last);
                              T.lastUpdateTime := Some now |};
                T.requests := [url] |}).
Proof.
  unfold T.update.
  destruct (T.tooRecent cfg st now); [left; split; reflexivity|right].
  destruct (net url) as [resp|msg]; [|left; split; [reflexivity|eexists; reflexivity]].
  destruct resp as [| |[|v vs]];
    try (left; split; [reflexivity|eexists; reflexivity]).
  destruct (mapM (T.parsePeriod cfg) (v :: vs)) as [periods|e] eqn:Hmap;
    [|left; split; [reflexivity|eexists; reflexivity]].
  right. split; [reflexivity|].
  destruct (exists_last (l := periods)) as (l & x & ->).
  { intros ->. apply mapM_Forall2 in Hmap. inversion Hmap. }
  exists l, x. now rewrite index_last.
Qed.

Lemma S_update_cases (secondToDate : Z -> string) (formatDate : string -> string)
    (cfg : S.Config) (net : Networker S.Response) (now : Z) (st : S.State) :
  (S.tooRecent cfg st now = true
   /\ S.update secondToDate formatDate cfg net now st
      = {| S.returned := Ok tt; S.state := st; S.requests := [] |})
  \/ (S.tooRecent cfg st now = false
      /\ exists e, S.update secondToDate formatDate cfg net now st
                   = {| S.returned := Throw e; S.state := st;
                        S.requests := [S.url_of secondToDate formatDate cfg now] |})
  \/ (S.tooRecent cfg st now = false
      /\ exists periods last,
           S.update secondToDate formatDate cfg net now st
           = {| S.returned := Ok tt;
                S.state := {| S.priceHistory := periods ++ [last];
                              S.currentPrice := Some (S.price last);
                              S.lastUpdateTime := Some now |};
                S.requests := [S.url_of secondToDate formatDate cfg now] |}).
Proof.
  unfold S.update.
  destruct (S.tooRecent cfg st now); [left; split; reflexivity|right].
  cbv zeta.
  destruct (net (S.url_of secondToDate formatDate cfg now)) as [resp|msg];
    [|left; split; [reflexivity|eexists; reflexivity]].
  destruct resp as [| |[|v vs]];
    try (left; split; [reflexivity|eexists; reflexivity]).
  destruct (mapM (S.parsePeriod cfg) (v :: vs)) as [periods|e] eqn:Hmap;
    [|left; split; [reflexivity|eexists; reflexivity]].
  right. split; [reflexivity|].
  destruct (exists_last (l := periods)) as (l & x & ->).
  { intros ->. apply mapM_Forall2 in Hmap. inversion Hmap. }
  exists l, x. now rewrite index_last.
Qed.

Lemma T_tooRecent_false (cfg : T.Config) (st : T.State) (now : Z) :
  T.tooRecent cfg st now = false <->
  (T.lastUpdateTime st = None
   \/ exists t, T.lastUpdateTime st = Some t /\ t + T.minTimeBetweenUpdates cfg <= now).
Proof.
  unfold T.tooRecent. destruct (T.lastUpdateTime st) as [t|]; cbn [of_field].
  - rewrite Z.ltb_ge. split.
    + intros H. right. exists t. split; [reflexivity|exact H].
    + intros [H|(t' & H & Hle)]; [discriminate|]. now injection H as <-.
  - split; [now left|reflexivity].
Qed.

Lemma S_tooRecent_false (cfg : S.Config) (st : S.State) (now : Z) :
  S.tooRecent cfg st now = false <->
  (S.lastUpdateTime st = None
   \/ exists t, S.lastUpdateTime st = Some t /\ t + S.minTimeBetweenUpdates cfg <= now).
Proof.
  unfold S.tooRecent. destruct (S.lastUpdateTime st) as [t|]; cbn [of_field].
  - rewrite Z.ltb_ge. split.
    + intros H. right. exists t. split; [reflexivity|exact H].
    + intros [H|(t' & H & Hle)]; [discriminate|]. now injection H as <-.
  - split; [now left|reflexivity].
Qed.

(** X1.  Both feeds: a call of [update] made when [lastUpdateTime] is [null],
    or when [lastUpdateTime + minTimeBetweenUpdates <= currentTime] (the bound
    included), sends exactly one request, whatever comes back. *)
Theorem update_when_due_requests_once :
  (forall (url : string) (cfg : T.Config) (net : Networker T.Response)
          (now : Z) (st : T.State),
      T.lastUpdateTime st = None
      \/ (exists t, T.lastUpdateTime st = Some t
                    /\ t + T.minTimeBetweenUpdates cfg <= now) ->
      T.requests (T.update url cfg net now st) = [url])
  /\
  (forall (secondToDate : Z -> string) (formatDate : string -> string) (cfg : S.Config)
          (net : Networker S.Response) (now : Z) (st : S.State),
      S.lastUpdateTime st = None
      \/ (exists t, S.lastUpdateTime st = Some t
                    /\ t + S.minTimeBetweenUpdates cfg <= now) ->
      S.requests (S.update secondToDate formatDate cfg net now st)
      = [S.url_of secondToDate formatDate cfg now]).
Proof.
  split.
  - intros url cfg net now st H. apply T_tooRecent_false in H.
    destruct (T_update_cases url cfg net now st)
      as [[E _]|[[_ (e & ->)]|[_ (ps & x & ->)]]]; [congruence|reflexivity|reflexivity].
  - intros sd fd cfg net now st H. apply S_tooRecent_false in H.
    destruct (S_update_cases sd fd cfg net now st)
      as [[E _]|[[_ (e & ->)]|[_ (ps & x & ->)]]]; [congruence|reflexivity|reflexivity].
Qed.

Lemma update_when_due_requests_once_sample :
  T.requests (T.update "url" twelve_cfg twelve_net (1676300000 + 43200) twelve_after_sample)
  = ["url"]
  /\ S.requests (S.update any_secondToDate any_formatDate statistics_cfg statistics_net
                   (1676300000 + 900) statistics_after_sample)
     = [S.url_of any_secondToDate any_formatDate statistics_cfg (1676300000 + 900)].
Proof.
  destruct update_when_due_requests_once as [HT HS].
  split.
  - apply HT. right. exists 1676300000. split; [reflexivity|]. vm_compute. discriminate.
  - apply HS. right. exists 1676300000. split; [reflexivity|]. vm_compute. discriminate.
Defined.

(** X2.  Both feeds: when [update] throws, for whatever reason (the request
    rejected, no samples in the response, a price that does not convert), it
    has sent its one request and the series, the current price and the last
    update time are those of before the call. *)
Theorem update_throw_keeps_state :
  (forall (url : string) (cfg : T.Config) (net : Networker T.Response)
          (now : Z) (st : T.State) (e : T.Err),
      T.returned (T.update url cfg net now st) = Throw e ->
      T.state (T.update url cfg net now st) = st
      /\ T.requests (T.update url cfg net now st) = [url])
  /\
  (forall (secondToDate : Z -> string) (formatDate : string -> string) (cfg : S.Config)
          (net : Networker S.Response) (now : Z) (st : S.State) (e : S.Err),
      S.returned (S.update secondToDate formatDate cfg net now st) = Throw e ->
      S.state (S.update secondToDate formatDate cfg net now st) = st
      /\ S.requests (S.update secondToDate formatDate cfg net now st)
         = [S.url_of secondToDate formatDate cfg now]).
Proof.
  split.
  - intros url cfg net now st e.
    destruct (T_update_cases url cfg net now st)
      as [[_ ->]|[[_ (e' & ->)]|[_ (ps & x & ->)]]];
      cbn [T.returned T.state T.requests]; intros H; (discriminate H || now split).
  - intros sd fd cfg net now st e.
    destruct (S_update_cases sd fd cfg net now st)
      as [[_ ->]|[[_ (e' & ->)]|[_ (ps & x & ->)]]];
      cbn [S.returned S.state S.requests]; intros H; (discriminate H || now split).
Qed.

(** A price that does not convert, and a request that is rejected. *)
Lemma update_throw_keeps_state_sample :
  (let net : Networker T.Response :=
     fun _ => Ok (T.Values [ {| T.datetime := VStr "2023-02-10 15:30:00";
                               T.close := "n/a" |} ]) in
   T.state (T.update "url" twelve_cfg net 1676400000 twelve_after_sample)
   = twelve_after_sample)
  /\
  (let net : Networker S.Response := fun _ => Throw "socket hang up" in
   S.state (S.update any_secondToDate any_formatDate statistics_cfg net 1676400000
              statistics_after_sample)
   = statistics_after_sample).
Proof.
  destruct update_throw_keeps_state as [HT HS].
  split.
  - cbv zeta.
    eapply (proj1 (HT "url" twelve_cfg _ 1676400000 twelve_after_sample
                      (ConversionError InvalidDecimalValue) _)).
    Unshelve. reflexivity.
  - cbv zeta.
    eapply (proj1 (HS any_secondToDate any_formatDate statistics_cfg _ 1676400000
                      statistics_after_sample (NetworkError "socket hang up") _)).
    Unshelve. reflexivity.
Defined.

(** X3.  Both feeds: with a throttle window that is not negative, a call of
    [update] never moves a set [lastUpdateTime] back and never unsets it: it
    stays as it was, or becomes the clock's time, which is then at least the
    old value plus the window. *)
Theorem update_last_update_time_monotone :
  (forall (url : string) (cfg : T.Config) (net : Networker T.Response)
          (now t : Z) (st : T.State),
      0 <= T.minTimeBetweenUpdates cfg ->
      T.getLastUpdateTime st = Some t ->
      exists t', T.getLastUpdateTime (T.state (T.update url cfg net now st)) = Some t'
                 /\ t <= t'
                 /\ (t' = t \/ (t' = now /\ t + T.minTimeBetweenUpdates cfg <= now)))
  /\
  (forall (secondToDate : Z -> string) (formatDate : string -> string) (cfg : S.Config)
          (net : Networker S.Response) (now t : Z) (st : S.State),
      0 <= S.minTimeBetweenUpdates cfg ->
      S.getLastUpdateTime st = Some t ->
      exists t', S.getLastUpdateTime
                   (S.state (S.update secondToDate formatDate cfg net now st)) = Some t'
                 /\ t <= t'
                 /\ (t' = t \/ (t' = now /\ t + S.minTimeBetweenUpdates cfg <= now))).
Proof.
  split.
  - intros url cfg net now t st Hmin Ht. unfold T.getLastUpdateTime in *.
    destruct (T_update_cases url cfg net now st)
      as [[_ ->]|[[_ (e' & ->)]|[Hdue (ps & x & ->)]]]; cbn [T.state T.lastUpdateTime].
    + exists t. repeat split; [assumption|lia|now left].
    + exists t. repeat split; [assumption|lia|now left].
    + apply T_tooRecent_false in Hdue. destruct Hdue as [Hn|(t0 & H0 & Hle)]; [congruence|].
      assert (t0 = t) by congruence. subst t0.
      exists now. repeat split; [lia|right; split; [reflexivity|lia]].
  - intros sd fd cfg net now t st Hmin Ht. unfold S.getLastUpdateTime in *.
    destruct (S_update_cases sd fd cfg net now st)
      as [[_ ->]|[[_ (e' & ->)]|[Hdue (ps & x & ->)]]]; cbn [S.state S.lastUpdateTime].
    + exists t. repeat split; [assumption|lia|now left].
    + exists t. repeat split; [assumption|lia|now left].
    + apply S_tooRecent_false in Hdue. destruct Hdue as [Hn|(t0 & H0 & Hle)]; [congruence|].
      assert (t0 = t) by congruence. subst t0.
      exists now. repeat split; [lia|right; split; [reflexivity|lia]].
Qed.

Lemma update_last_update_time_monotone_sample :
  (exists t', T.getLastUpdateTime
                (T.state (T.update "url" twelve_cfg twelve_net 1676400000 twelve_after_sample))
              = Some t' /\ 1676300000 <= t')
  /\
  (exists t', S.getLastUpdateTime
                (S.state (S.update any_secondToDate any_formatDate statistics_cfg
                            statistics_net 1676300100 statistics_after_sample))
              = Some t' /\ 1676300000 <= t').
Proof.
  destruct update_last_update_time_monotone as [HT HS].
  split.
  - destruct (HT "url" twelve_cfg twelve_net 1676400000 1676300000 twelve_after_sample)
      as (t' & H1 & H2 & _).
    + vm_compute. discriminate.
    + reflexivity.
    + exists t'. split; assumption.
  - destruct (HS any_secondToDate any_formatDate statistics_cfg statistics_net 1676300100
                1676300000 statistics_after_sample) as (t' & H1 & H2 & _).
    + vm_compute. discriminate.
    + reflexivity.
    + exists t'. split; assumption.
Defined.

(** ** States a feed can be in *)

Lemma T_reachable_shape (url : string) (cfg : T.Config) (st : T.State) :
  T_reachable url cfg st ->
  (T.priceHistory st = [] /\ T.getCurrentPrice st = None
   /\ T.getLastUpdateTime st = None)
  \/ (exists periods last t,
         T.priceHistory st = periods ++ [last]
         /\ T.getCurrentPrice st = Some (T.closePrice last)
         /\ T.getLastUpdateTime st = Some t).
Proof.
  intros H. induction H as [|net now st H IH].
  - left. repeat split.
  - destruct (T_update_cases url cfg net now st)
      as [[_ ->]|[[_ (e' & ->)]|[_ (ps & x & ->)]]]; cbn [T.state];
      [exact IH|exact IH|].
    right. exists ps, x, now. repeat split.
Qed.

Lemma S_reachable_shape (secondToDate : Z -> string) (formatDate : string -> string)
    (cfg : S.Config) (st : S.State) :
  S_reachable secondToDate formatDate cfg st ->
  (S.priceHistory st = [] /\ S.getCurrentPrice st = None
   /\ S.getLastUpdateTime st = None)
  \/ (exists periods last t,
         S.priceHistory st = periods ++ [last]
         /\ S.getCurrentPrice st = Some (S.price last)
         /\ S.getLastUpdateTime st = Some t).
Proof.
  intros H. induction H as [|net now st H IH].
  - left. repeat split.
  - destruct (S_update_cases secondToDate formatDate cfg net now st)
      as [[_ ->]|[[_ (e' & ->)]|[_ (ps & x & ->)]]]; cbn [S.state];
      [exact IH|exact IH|].
    right. exists ps, x, now. repeat split.
Qed.

(** X4.  Both feeds: whatever calls of [update] came before, either nothing
    was ever stored (no series, no current price, no last update time), or
    all three are set, the series is not empty and the current price is the
    price of its last period. *)
Theorem reachable_state_shape :
  (forall (url : string) (cfg : T.Config) (st : T.State),
      T_reachable url cfg st ->
      (T.priceHistory st = [] /\ T.getCurrentPrice st = None
       /\ T.getLastUpdateTime st = None)
      \/ (exists periods last t,
             T.priceHistory st = periods ++ [last]
             /\ T.getCurrentPrice st = Some (T.closePrice last)
             /\ T.getLastUpdateTime st = Some t))
  /\
  (forall (secondToDate : Z -> string) (formatDate : string -> string) (cfg : S.Config)
          (st : S.State),
      S_reachable secondToDate formatDate cfg st ->
      (S.priceHistory st = [] /\ S.getCurrentPrice st = None
       /\ S.getLastUpdateTime st = None)
      \/ (exists periods last t,
             S.priceHistory st = periods ++ [last]
             /\ S.getCurrentPrice st = Some (S.price last)
             /\ S.getLastUpdateTime st = Some t)).
Proof. split; [exact T_reachable_shape|exact S_reachable_shape]. Qed.

Lemma twelve_after_sample_reachable : T_reachable "url" twelve_cfg twelve_after_sample.
Proof. apply T_updated, T_constructed. Qed.

Lemma statistics_after_sample_reachable :
  S_reachable any_secondToDate any_formatDate statistics_cfg statistics_after_sample.
Proof. apply S_updated, S_constructed. Qed.

Lemma reachable_state_shape_sample :
  ((T.priceHistory twelve_after_sample = [] /\ T.getCurrentPrice twelve_after_sample = None
    /\ T.getLastUpdateTime twelve_after_sample = None)
   \/ (exists periods last t,
          T.priceHistory twelve_after_sample = periods ++ [last]
          /\ T.getCurrentPrice twelve_after_sample = Some (T.closePrice last)
          /\ T.getLastUpdateTime twelve_after_sample = Some t))
  /\
  ((S.priceHistory statistics_after_sample = []
    /\ S.getCurrentPrice statistics_after_sample = None
    /\ S.getLastUpdateTime statistics_after_sample = None)
   \/ (exists periods last t,
          S.priceHistory statistics_after_sample = periods ++ [last]
          /\ S.getCurrentPrice statistics_after_sample = Some (S.price last)
          /\ S.getLastUpdateTime statistics_after_sample = Some t)).
Proof.
  destruct reachable_state_shape as [HT HS].
  split.
  - exact (HT "url" twelve_cfg twelve_after_sample twelve_after_sample_reachable).
  - exact (HS any_secondToDate any_formatDate statistics_cfg statistics_after_sample
              statistics_after_sample_reachable).
Defined.

(** A price comes from the current price or from a stored period. *)
Lemma T_lookup_source (st : T.State) (time : number) (p : Z) :
  T.getHistoricalPrice st time = Ok p ->
  T.currentPrice st = Some p \/ exists m, In m (T.priceHistory st) /\ T.closePrice m = p.
Proof.
  unfold T.getHistoricalPrice.
  destruct (T.lastUpdateTime st); cbn [of_field].
  all: destruct (find (fun q => truthy (T.date q)) (T.priceHistory st)) as [f|];
    [|discriminate].
  all: destruct (lt_val time (T.date f)); [discriminate|].
  all: destruct (find (fun q => lt_val time (T.date q)) (T.priceHistory st)) as [m|] eqn:Hm;
    [apply find_some in Hm; intros H; injection H as <-; right; exists m; tauto|].
  all: destruct (T.currentPrice st); [intros H; injection H as <-; now left|discriminate].
Qed.

Lemma S_lookup_source (st : S.State) (time : number) (p : Z) :
  S.getHistoricalPrice st time = Ok p ->
  S.currentPrice st = Some p \/ exists m, In m (S.priceHistory st) /\ S.price m = p.
Proof.
  unfold S.getHistoricalPrice.
  destruct (S.lastUpdateTime st); cbn [of_field].
  all: destruct (find (fun q => truthy_number (S.date q)) (S.priceHistory st)) as [f|];
    [|discriminate].
  all: destruct (lt time (S.date f)); [discriminate|].
  all: cbv zeta.
  all: destruct (0 <? findIndex (fun q => lt time (S.date q)) (S.priceHistory st)).
  all: try (destruct (JS.index (S.priceHistory st) _) as [m|] eqn:Hm;
            [unfold JS.index in Hm;
             destruct (_ <? 0) in Hm; [discriminate|];
             apply nth_error_In in Hm;
             intros H; injection H as <-; right; exists m; tauto|]).
  all: destruct (S.currentPrice st); [intros H; injection H as <-; now left|discriminate].
Qed.

Lemma T_lookup_missing (st : T.State) (time : number) :
  T.getHistoricalPrice st time = Throw MissingCurrentPriceError ->
  T.currentPrice st = None /\ T.priceHistory st <> [].
Proof.
  unfold T.getHistoricalPrice.
  destruct (T.lastUpdateTime st); cbn [of_field].
  all: destruct (T.priceHistory st) as [|q l]; [discriminate|].
  all: destruct (find _ (q :: l)) as [f|]; [|discriminate].
  all: destruct (lt_val time (T.date f)); [discriminate|].
  all: destruct (find _ (q :: l)); [discriminate|].
  all: destruct (T.currentPrice st); [discriminate|].
  all: intros _; split; [reflexivity|discriminate].
Qed.

Lemma S_lookup_missing (st : S.State) (time : number) :
  S.getHistoricalPrice st time = Throw MissingCurrentPriceError ->
  S.currentPrice st = None /\ S.priceHistory st <> [].
Proof.
  unfold S.getHistoricalPrice.
  destruct (S.lastUpdateTime st); cbn [of_field].
  all: destruct (S.priceHistory st) as [|q l]; [discriminate|].
  all: destruct (find _ (q :: l)) as [f|]; [|discriminate].
  all: destruct (lt time (S.date f)); [discriminate|].
  all: cbv zeta.
  all: destruct (if 0 <? findIndex _ (q :: l) then _ else None); [discriminate|].
  all: destruct (S.currentPrice st); [discriminate|].
  all: intros _; split; [reflexivity|discriminate].
Qed.

(** X5.  Both feeds: in a state reached through calls of [update],
    [getHistoricalPrice] never throws "currentPrice is null", for any
    time. *)
Theorem reachable_never_missing_current_price :
  (forall (url : string) (cfg : T.Config) (st : T.State) (time : number),
      T_reachable url cfg st ->
      T.getHistoricalPrice st time <> Throw MissingCurrentPriceError)
  /\
  (forall (secondToDate : Z -> string) (formatDate : string -> string) (cfg : S.Config)
          (st : S.State) (time : number),
      S_reachable secondToDate formatDate cfg st ->
      S.getHistoricalPrice st time <> Throw MissingCurrentPriceError).
Proof.
  pose proof T_reachable_shape as HT. pose proof S_reachable_shape as HS.
  split.
  - intros url cfg st time Hr Hget.
    apply T_lookup_missing in Hget. destruct Hget as [Hc Hne].
    destruct (HT url cfg st Hr) as [(Hh & _)|(ps & x & t & _ & Hcur & _)].
    + contradiction.
    + unfold T.getCurrentPrice in Hcur. congruence.
  - intros sd fd cfg st time Hr Hget.
    apply S_lookup_missing in Hget. destruct Hget as [Hc Hne].
    destruct (HS sd fd cfg st Hr) as [(Hh & _)|(ps & x & t & _ & Hcur & _)].
    + contradiction.
    + unfold S.getCurrentPrice in Hcur. congruence.
Qed.

Lemma reachable_never_missing_current_price_sample :
  T.getHistoricalPrice twelve_after_sample (Int 0) <> Throw MissingCurrentPriceError
  /\ S.getHistoricalPrice statistics_after_sample (Int 1679450400)
     <> Throw MissingCurrentPriceError.
Proof.
  destruct reachable_never_missing_current_price as [HT HS].
  split.
  - exact (HT "url" twelve_cfg twelve_after_sample (Int 0) twelve_after_sample_reachable).
  - exact (HS any_secondToDate any_formatDate statistics_cfg statistics_after_sample
              (Int 1679450400) statistics_after_sample_reachable).
Defined.

(** X6.  Both feeds: in a state reached through calls of [update], a price
    that [getHistoricalPrice] returns is the price of a period of the stored
    series. *)
Theorem reachable_price_is_stored :
  (forall (url : string) (cfg : T.Config) (st : T.State) (time : number) (p : Z),
      T_reachable url cfg st ->
      T.getHistoricalPrice st time = Ok p ->
      exists m, In m (T.priceHistory st) /\ T.closePrice m = p)
  /\
  (forall (secondToDate : Z -> string) (formatDate : string -> string) (cfg : S.Config)
          (st : S.State) (time : number) (p : Z),
      S_reachable secondToDate formatDate cfg st ->
      S.getHistoricalPrice st time = Ok p ->
      exists m, In m (S.priceHistory st) /\ S.price m = p).
Proof.
  pose proof T_reachable_shape as HT. pose proof S_reachable_shape as HS.
  split.
  - intros url cfg st time p Hr Hget.
    destruct (T_lookup_source _ _ _ Hget) as [Hc|Hm]; [|exact Hm].
    destruct (HT url cfg st Hr) as [(_ & Hcur & _)|(ps & x & t & Hh & Hcur & _)];
      unfold T.getCurrentPrice in Hcur; [congruence|].
    exists x. split; [rewrite Hh; apply in_elt|congruence].
  - intros sd fd cfg st time p Hr Hget.
    destruct (S_lookup_source _ _ _ Hget) as [Hc|Hm]; [|exact Hm].
    destruct (HS sd fd cfg st Hr) as [(_ & Hcur & _)|(ps & x & t & Hh & Hcur & _)];
      unfold S.getCurrentPrice in Hcur; [congruence|].
    exists x. split; [rewrite Hh; apply in_elt|congruence].
Qed.

Lemma reachable_price_is_stored_sample :
  (exists m, In m (T.priceHistory twelve_after_sample)
             /\ T.closePrice m = 116640000000000000000)
  /\ (exists m, In m (S.priceHistory statistics_after_sample)
                /\ S.price m = 183300000000000000000).
Proof.
  destruct reachable_price_is_stored as [HT HS].
  split.
  - apply (HT "url" twelve_cfg twelve_after_sample (Int 0) _ twelve_after_sample_reachable).
    reflexivity.
  - apply (HS any_secondToDate any_formatDate statistics_cfg statistics_after_sample
              (Int 1677031200) _ statistics_after_sample_reachable).
    reflexivity.
Defined.

(** ** A query at the very timestamp of a sample *)

Lemma at_or_between_first_after (l1 : list Sample) (a b : Sample) (l2 : list Sample) (time : Z) :
  ordered (l1 ++ a :: b :: l2) -> timestamp a <= time < timestamp b ->
  find (after time) (l1 ++ a :: b :: l2) = Some b
  /\ findIndex (after time) (l1 ++ a :: b :: l2) = Z.of_nat (List.length l1) + 1.
Proof.
  intros Hord [Ha Hb].
  destruct (ordered_around _ _ _ Hord) as [Hbefore _].
  assert (Hpre : Forall (fun y => after time y = false) (l1 ++ [a])).
  { apply Forall_app; split.
    - eapply Forall_impl; [|exact Hbefore].
      intros y Hy. apply Z.ltb_ge. cbv beta in Hy. lia.
    - constructor; [|constructor]. apply Z.ltb_ge. lia. }
  assert (Hb' : after time b = true) by (apply Z.ltb_lt; exact Hb).
  replace (l1 ++ a :: b :: l2) with ((l1 ++ [a]) ++ b :: l2)
    by (rewrite <- app_assoc; reflexivity).
  split.
  - now apply find_after.
  - rewrite findIndex_after by assumption.
    rewrite length_app; simpl. lia.
Qed.

(** The Statistics Netherlands lookup at the timestamp of a sample that has
    a later one after it, and at the timestamp of the newest sample. *)
Lemma S_lookup_own_price (l1 : list Sample) (a b : Sample) (l2 : list Sample) (st : S.State) :
  ordered (l1 ++ a :: b :: l2) ->
  timestamp a <> 0 ->
  timestamp a < timestamp b ->
  S.priceHistory st = map S.period (l1 ++ a :: b :: l2) ->
  S.getHistoricalPrice st (Int (timestamp a)) = Ok (price_of a).
Proof.
  intros Hord Ha Hlt Hst.
  assert (Hbetween : timestamp a <= timestamp a < timestamp b) by lia.
  destruct (at_or_between_first_after _ _ _ _ _ Hord Hbetween) as [_ Hidx].
  destruct (first_valid_not_after l1 a (b :: l2) (timestamp a) Hord Ha) as (f & Hf & Hff);
    [lia|].
  rewrite (S_lookup_numeric _ _ _ Hst), Hf, Hff.
  cbv zeta. rewrite Hidx.
  replace (0 <? Z.of_nat (List.length l1) + 1) with true by (symmetry; apply Z.ltb_lt; lia).
  replace (Z.of_nat (List.length l1) + 1 - 1) with (Z.of_nat (List.length l1)) by lia.
  now rewrite index_middle.
Qed.

Lemma T_lookup_next_price (l1 : list Sample) (a b : Sample) (l2 : list Sample) (st : T.State) :
  ordered (l1 ++ a :: b :: l2) ->
  timestamp a <> 0 ->
  timestamp a < timestamp b ->
  T.priceHistory st = map T.period (l1 ++ a :: b :: l2) ->
  T.getHistoricalPrice st (Int (timestamp a)) = Ok (price_of b).
Proof.
  intros Hord Ha Hlt Hst.
  assert (Hbetween : timestamp a <= timestamp a < timestamp b) by lia.
  destruct (at_or_between_first_after _ _ _ _ _ Hord Hbetween) as [Hfind _].
  destruct (first_valid_not_after l1 a (b :: l2) (timestamp a) Hord Ha) as (f & Hf & Hff);
    [lia|].
  rewrite (T_lookup_numeric _ _ _ Hst), Hf, Hff. now rewrite Hfind.
Qed.

Lemma S_lookup_at_newest (hist : list Sample) (newest : Sample) (st : S.State) :
  ordered (hist ++ [newest]) ->
  timestamp newest <> 0 ->
  S.priceHistory st = map S.period (hist ++ [newest]) ->
  S.getHistoricalPrice st (Int (timestamp newest)) = current_or_missing (S.currentPrice st).
Proof.
  intros Hord Hn Hst.
  pose proof (all_before_newest _ _ (timestamp newest) Hord (Z.le_refl _)) as Hall.
  destruct (first_valid_exists (hist ++ [newest])) as (f & Hf & Hin).
  { exists newest. split; [apply in_elt|assumption]. }
  assert (Hff : after (timestamp newest) f = false)
    by (rewrite Forall_forall in Hall; exact (Hall f Hin)).
  rewrite (S_lookup_numeric _ _ _ Hst), Hf, Hff.
  cbv zeta. now rewrite (findIndex_none _ _ Hall).
Qed.

(** X7.  On a series ordered from the oldest to the newest, a query at the
    very timestamp of a sample [a] that is not 0 and is followed by a later
    sample [b] is answered with the price of [b] by the TwelveData feed and
    with the price of [a] itself by the Statistics Netherlands feed. *)
Theorem lookup_at_sample_timestamp
    (l1 : list Sample) (a b : Sample) (l2 : list Sample) :
  ordered (l1 ++ a :: b :: l2) ->
  timestamp a <> 0 ->
  timestamp a < timestamp b ->
  (forall st : T.State,
      T.priceHistory st = map T.period (l1 ++ a :: b :: l2) ->
      T.getHistoricalPrice st (Int (timestamp a)) = Ok (price_of b))
  /\
  (forall st : S.State,
      S.priceHistory st = map S.period (l1 ++ a :: b :: l2) ->
      S.getHistoricalPrice st (Int (timestamp a)) = Ok (price_of a)).
Proof.
  intros Hord Ha Hlt. split; intros st Hst.
  - now apply (T_lookup_next_price l1 a b l2).
  - now apply (S_lookup_own_price l1 a b l2).
Qed.

Lemma lookup_at_sample_timestamp_scenario :
  T.getHistoricalPrice scenario_a (Int 200) = Ok 30
  /\ S.getHistoricalPrice scenario_b (Int 200) = Ok 20.
Proof.
  assert (Hord : ordered ([(100, 10)] ++ (200, 20) :: (300, 30) :: []))
    by exact ordered_scenario.
  assert (Ha : timestamp (200, 20) <> 0) by discriminate.
  assert (Hlt : timestamp (200, 20) < timestamp (300, 30)) by reflexivity.
  destruct (lookup_at_sample_timestamp _ _ _ _ Hord Ha Hlt) as [HT HS].
  split; [exact (HT scenario_a eq_refl)|exact (HS scenario_b eq_refl)].
Defined.

(** ** Dates of the Statistics Netherlands periods *)

Lemma Q_of_integer_literal (ip : Z) :
  ((inject_Z ip + inject_Z 0 / inject_Z (10 ^ Z.of_nat 0)) * Qpower (inject_Z 10) 0)%Q
  = inject_Z ip.
Proof.
  unfold inject_Z, Qdiv, Qinv, Qmult, Qplus, Qpower; simpl.
  f_equal. lia.
Qed.

Lemma take_digits_all (w : list ascii) (acc : Z) (n : nat) :
  forallb is_digit w = true ->
  take_digits w acc n
  = (fold_left (fun a c => 10 * a + digit_val c) w acc, (n + List.length w)%nat, []).
Proof.
  revert acc n; induction w as [|c w IH]; intros acc n H; simpl.
  - now rewrite Nat.add_0_r.
  - simpl in H. apply andb_true_iff in H. destruct H as [Hc Hw].
    rewrite Hc, (IH _ _ Hw). now rewrite Nat.add_succ_r.
Qed.

Lemma trim_end_digits (w : list ascii) :
  forallb is_digit w = true -> trim_end w = w.
Proof.
  intros H. destruct w as [|c r]; [reflexivity|].
  destruct (exists_last (l := c :: r)) as (w' & z & E); [discriminate|].
  rewrite E in *. apply trim_end_nonspace, digit_not_space.
  rewrite forallb_app in H. apply andb_true_iff in H. destruct H as [_ H].
  simpl in H. now apply andb_true_iff in H.
Qed.

(** [Number] of a string of digits is the integer they write. *)
Lemma StringToNumber_digits (w : list ascii) :
  w <> [] -> forallb is_digit w = true ->
  StringToNumber (string_of_list_ascii w) = Int (Fixed.digits_value w).
Proof.
  intros Hne Hd. unfold StringToNumber.
  rewrite list_ascii_of_string_of_list_ascii.
  destruct w as [|c r]; [now contradiction Hne|].
  assert (Hc : is_digit c = true) by (simpl in Hd; now apply andb_true_iff in Hd).
  rewrite trim_start_nonspace by now apply digit_not_space.
  rewrite (trim_end_digits _ Hd).
  assert (Hu : numeric_literal (c :: r) = unsigned_decimal (c :: r)).
  { unfold numeric_literal.
    rewrite (digit_neq c "+"), (digit_neq c "-") by (assumption || reflexivity).
    destruct r as [|x r']; [reflexivity|].
    assert (Hx : is_digit x = true).
    { simpl in Hd. apply andb_true_iff in Hd. destruct Hd as [_ Hd].
      now apply andb_true_iff in Hd. }
    rewrite (digit_no_radix x Hx). now destruct (Ascii.eqb c "0"). }
  rewrite Hu. unfold unsigned_decimal.
  replace (list_ascii_eqb (c :: r) Infinity_lit) with false.
  2:{ unfold list_ascii_eqb, Infinity_lit.
      cbn [list_ascii_of_string string_of_list_ascii String.eqb].
      now rewrite (digit_neq c "I") by (assumption || reflexivity). }
  rewrite (take_digits_all _ _ _ Hd).
  cbn [List.length Nat.add Nat.eqb exponent].
  unfold Int, Fixed.digits_value. f_equal. apply Q_of_integer_literal.
Qed.

Lemma unix_Int (z : Z) : unix (Int z) = Int (z / 1000).
Proof.
  unfold unix, Int. f_equal. f_equal.
  unfold inject_Z, Qdiv, Qinv, Qmult, Qfloor; simpl.
  now rewrite Z.mul_1_r.
Qed.

Lemma trunc_Int (z : Z) : trunc (inject_Z z) = z.
Proof. unfold trunc, inject_Z; simpl. apply Z.quot_1_r. Qed.

Lemma DayFromYear_next (y : Z) : DayFromYear y + 365 <= DayFromYear (y + 1).
Proof. unfold DayFromYear. Z.div_mod_to_equations. lia. Qed.

Lemma days_before_month_range (mn : Z) (leap : bool) :
  0 <= days_before_month mn leap <= 335.
Proof.
  unfold days_before_month.
  destruct leap;
    repeat match goal with
           | |- context [match ?x with _ => _ end] => destruct x
           end; lia.
Qed.

Lemma publication_time_next (k : Z) : publication_time k < publication_time (k + 1).
Proof.
  unfold publication_time.
  assert (Hm : 0 <= k mod 12 < 12) by (apply Z.mod_pos_bound; lia).
  destruct (Z.eq_dec (k mod 12) 11) as [E|E].
  - assert (E1 : (k + 1) / 12 = k / 12 + 1) by (Z.div_mod_to_equations; lia).
    assert (E2 : (k + 1) mod 12 = 0) by (Z.div_mod_to_equations; lia).
    rewrite E1, E2, E.
    pose proof (DayFromYear_next (k / 12)).
    pose proof (days_before_month_range 11 (leap_year (k / 12))).
    change (days_before_month 0 (leap_year (k / 12 + 1))) with 0.
    lia.
  - assert (E1 : (k + 1) / 12 = k / 12) by (Z.div_mod_to_equations; lia).
    assert (E2 : (k + 1) mod 12 = k mod 12 + 1) by (Z.div_mod_to_equations; lia).
    rewrite E1, E2.
    assert (Hc : k mod 12 = 0 \/ k mod 12 = 1 \/ k mod 12 = 2 \/ k mod 12 = 3
                 \/ k mod 12 = 4 \/ k mod 12 = 5 \/ k mod 12 = 6 \/ k mod 12 = 7
                 \/ k mod 12 = 8 \/ k mod 12 = 9 \/ k mod 12 = 10) by lia.
    destruct (leap_year (k / 12));
      repeat (destruct Hc as [Hc|Hc]; [rewrite Hc; simpl; lia|]);
      rewrite Hc; simpl; lia.
Qed.

Lemma publication_time_increasing (k1 k2 : Z) :
  k1 < k2 -> publication_time k1 < publication_time k2.
Proof.
  intros H. replace k2 with (k1 + 1 + Z.of_nat (Z.to_nat (k2 - k1 - 1))) by lia.
  induction (Z.to_nat (k2 - k1 - 1)) as [|n IH].
  - replace (k1 + 1 + Z.of_nat 0) with (k1 + 1) by lia. apply publication_time_next.
  - replace (k1 + 1 + Z.of_nat (S n)) with (k1 + 1 + Z.of_nat n + 1) by lia.
    pose proof (publication_time_next (k1 + 1 + Z.of_nat n)). lia.
Qed.

Lemma publication_time_nonzero (k : Z) : publication_time k <> 0.
Proof. unfold publication_time. lia. Qed.

(** The 22nd of February 2023, 02:00 UTC. *)
Lemma publication_time_february_2023 : publication_time (12 * 2023 + 1) = 1677031200.
Proof. reflexivity. Qed.

Lemma convert_of_year_month (Y M : Z) :
  0 <= Y <= 9999 -> 0 <= M <= 99 ->
  unix (DateUTC (Int Y) (Int M) 22 2 0 0)
  = Int (publication_time
           (12 * (if (0 <=? Y) && (Y <=? 99) then 1900 + Y else Y) + M)).
Proof.
  intros HY HM. unfold DateUTC, Int. rewrite !trunc_Int.
  set (yr := if (0 <=? Y) && (Y <=? 99) then 1900 + Y else Y).
  assert (Hyr : 100 <= yr <= 9999).
  { subst yr. destruct (Z.leb_spec 0 Y); destruct (Z.leb_spec Y 99); cbn [andb]; lia. }
  assert (E1 : (12 * yr + M) / 12 = yr + M / 12) by (Z.div_mod_to_equations; lia).
  assert (E2 : (12 * yr + M) mod 12 = M mod 12) by (Z.div_mod_to_equations; lia).
  unfold publication_time. rewrite E1, E2.
  set (ym := yr + M / 12).
  assert (Hym : 100 <= ym <= 10007) by (subst ym; Z.div_mod_to_equations; lia).
  pose proof (days_before_month_range (M mod 12) (leap_year ym)) as Hd.
  assert (Hday : -700000 <= DayFromYear ym <= 3000000)
    by (unfold DayFromYear; Z.div_mod_to_equations; lia).
  set (day := DayFromYear ym + days_before_month (M mod 12) (leap_year ym) + 22 - 1) in *.
  replace (Z.abs (day * 86400000 + (2 * 3600 + 0 * 60 + 0) * 1000) <=? 8640000000000000)
    with true by (symmetry; apply Z.leb_le; subst day; lia).
  fold (Int (day * 86400000 + (2 * 3600 + 0 * 60 + 0) * 1000)).
  rewrite unix_Int.
  replace (day * 86400000 + (2 * 3600 + 0 * 60 + 0) * 1000)
    with ((day * 86400 + 7200) * 1000) by lia.
  rewrite Z.div_mul by discriminate.
  unfold Int. do 2 f_equal. subst day. lia.
Qed.

Lemma digit_val_range (c : ascii) : is_digit c = true -> 0 <= digit_val c <= 9.
Proof. intros H. apply digit_code in H. unfold digit_val. lia. Qed.

(** The date of a well-formed period code. *)
Lemma convert_of_period_key (s : string) (k : Z * Z) :
  period_key s = Some k ->
  0 <= fst k <= 9999 /\ 0 <= snd k <= 99
  /\ S.convertFormattedDateToTimestamp s
     = Int (publication_time
              (12 * (if (0 <=? fst k) && (fst k <=? 99) then 1900 + fst k else fst k)
               + snd k)).
Proof.
  unfold period_key. intros H.
  destruct (list_ascii_of_string s)
    as [|y1 [|y2 [|y3 [|y4 [|c5 [|c6 [|m1 [|m2 rest]]]]]]]] eqn:Es; try discriminate.
  assert (Hs : s = string_of_list_ascii (y1 :: y2 :: y3 :: y4 :: c5 :: c6 :: m1 :: m2 :: rest))
    by (rewrite <- Es; symmetry; apply string_of_list_ascii_of_string).
  clear Es. subst s.
  destruct (forallb is_digit [y1; y2; y3; y4; m1; m2]) eqn:Hd; [|discriminate].
  injection H as <-. cbn [fst snd].
  change [y1; y2; y3; y4; m1; m2] with ([y1; y2; y3; y4] ++ [m1; m2]) in Hd.
  rewrite forallb_app in Hd. apply andb_true_iff in Hd. destruct Hd as [D4 D2].
  assert (R4 : forall c, In c [y1; y2; y3; y4] -> 0 <= digit_val c <= 9).
  { intros c Hc. apply digit_val_range. rewrite forallb_forall in D4. now apply D4. }
  assert (R2 : forall c, In c [m1; m2] -> 0 <= digit_val c <= 9).
  { intros c Hc. apply digit_val_range. rewrite forallb_forall in D2. now apply D2. }
  pose proof (R4 y1 (or_introl eq_refl)).
  pose proof (R4 y2 (or_intror (or_introl eq_refl))).
  pose proof (R4 y3 (or_intror (or_intror (or_introl eq_refl)))).
  pose proof (R4 y4 (or_intror (or_intror (or_intror (or_introl eq_refl))))).
  pose proof (R2 m1 (or_introl eq_refl)).
  pose proof (R2 m2 (or_intror (or_introl eq_refl))).
  assert (HY : 0 <= Fixed.digits_value [y1; y2; y3; y4] <= 9999)
    by (unfold Fixed.digits_value; cbn [fold_left]; lia).
  assert (HM : 0 <= Fixed.digits_value [m1; m2] <= 99)
    by (unfold Fixed.digits_value; cbn [fold_left]; lia).
  split; [assumption|]. split; [assumption|].
  unfold S.convertFormattedDateToTimestamp.
  assert (E4 : slice 0 4 (string_of_list_ascii
                            (y1 :: y2 :: y3 :: y4 :: c5 :: c6 :: m1 :: m2 :: rest))
               = string_of_list_ascii [y1; y2; y3; y4]) by reflexivity.
  assert (E8 : slice 6 8 (string_of_list_ascii
                            (y1 :: y2 :: y3 :: y4 :: c5 :: c6 :: m1 :: m2 :: rest))
               = string_of_list_ascii [m1; m2])
    by (unfold slice; simpl; destruct (string_of_list_ascii rest); reflexivity).
  rewrite E4, E8.
  rewrite !StringToNumber_digits by (discriminate || assumption).
  now apply convert_of_year_month.
Qed.

Lemma convert_nan_or_integer (formattedDate : string) :
  S.convertFormattedDateToTimestamp formattedDate = NaN
  \/ exists day, S.convertFormattedDateToTimestamp formattedDate = Int (day * 86400 + 7200).
Proof.
  unfold S.convertFormattedDateToTimestamp, DateUTC.
  destruct (StringToNumber (slice 0 4 formattedDate)) as [| |y|]; try (now left).
  destruct (StringToNumber (slice 6 8 formattedDate)) as [| |m|]; try (now left).
  match goal with
  | |- context [if Z.abs (?d * 86400000 + _) <=? _ then _ else _] =>
      set (day := d); destruct (Z.abs (day * 86400000 + _) <=? _)
  end; [|now left].
  right. exists day. rewrite unix_Int.
  replace (day * 86400000 + (2 * 3600 + 0 * 60 + 0) * 1000)
    with ((day * 86400 + 7200) * 1000) by lia.
  now rewrite Z.div_mul by discriminate.
Qed.

(** X8.  Statistics Netherlands feed: whatever the string,
    [convertFormattedDateToTimestamp] gives NaN or a whole number of days
    plus two hours, so never 0: a period that [update] stores is passed over
    as having no valid date only when its date is NaN. *)
Theorem converted_date_is_never_zero (formattedDate : string) :
  S.convertFormattedDateToTimestamp formattedDate = NaN
  \/ (exists t, S.convertFormattedDateToTimestamp formattedDate = Int t
                /\ t mod 86400 = 7200
                /\ truthy_number (S.convertFormattedDateToTimestamp formattedDate) = true).
Proof.
  destruct (convert_nan_or_integer formattedDate) as [H|(day & H)]; [now left|right].
  exists (day * 86400 + 7200). rewrite H. split; [reflexivity|]. split.
  - Z.div_mod_to_equations. lia.
  - rewrite truthy_number_Int. apply negb_true_iff, Z.eqb_neq. lia.
Qed.

(** X9.  Statistics Netherlands feed: a period code with a four-digit year
    from 0100 on and a two-digit month converts to an integer date, and of two
    such codes the one with the greater 12 * year + month gets the strictly
    later date.  The month number is a zero-based index that carries into the
    following years: "2023MM13" is later than "2024MM00". *)
Theorem converted_dates_follow_periods (s1 s2 : string) (k1 k2 : Z * Z) :
  period_key s1 = Some k1 ->
  period_key s2 = Some k2 ->
  100 <= fst k1 ->
  100 <= fst k2 ->
  months k1 < months k2 ->
  exists t1 t2,
    S.convertFormattedDateToTimestamp s1 = Int t1
    /\ S.convertFormattedDateToTimestamp s2 = Int t2
    /\ t1 < t2.
Proof.
  intros H1 H2 Hy1 Hy2 Hlt.
  destruct (convert_of_period_key _ _ H1) as (_ & _ & E1).
  destruct (convert_of_period_key _ _ H2) as (_ & _ & E2).
  replace ((0 <=? fst k1) && (fst k1 <=? 99)) with false in E1
    by (symmetry; apply andb_false_iff; right; apply Z.leb_gt; lia).
  replace ((0 <=? fst k2) && (fst k2 <=? 99)) with false in E2
    by (symmetry; apply andb_false_iff; right; apply Z.leb_gt; lia).
  eexists _, _. split; [exact E1|]. split; [exact E2|].
  apply publication_time_increasing. exact Hlt.
Qed.

Lemma converted_dates_follow_periods_sample :
  exists t1 t2,
    S.convertFormattedDateToTimestamp "2023MM12" = Int t1
    /\ S.convertFormattedDateToTimestamp "2024MM01" = Int t2
    /\ t1 < t2.
Proof.
  apply (converted_dates_follow_periods "2023MM12" "2024MM01" (2023, 12) (2024, 1)).
  - reflexivity.
  - reflexivity.
  - vm_compute. discriminate.
  - vm_compute. discriminate.
  - reflexivity.
Defined.

(** ** A refresh of the Statistics Netherlands feed in period order *)

Lemma S_parsePeriod_date (cfg : S.Config) (d : S.DailyData) (p : S.PricePeriod) :
  S.parsePeriod cfg d = Ok p ->
  S.date p = S.convertFormattedDateToTimestamp (S.Periods d).
Proof.
  unfold S.parsePeriod. cbv zeta.
  destruct (S.convertPriceFeedDecimals cfg _); [|discriminate].
  intros H; injection H as <-. reflexivity.
Qed.

Lemma S_parsed_series (cfg : S.Config) (values : list S.DailyData)
    (periods : list S.PricePeriod) (keys : list (Z * Z)) :
  Forall2 (fun d p => S.parsePeriod cfg d = Ok p) values periods ->
  map (fun d => period_key (S.Periods d)) values = map Some keys ->
  Forall (fun k => 100 <= fst k) keys ->
  exists full : list Sample,
    periods = map S.period full
    /\ map timestamp full = map (fun k => publication_time (months k)) keys.
Proof.
  intros H. revert keys.
  induction H as [|d p values periods Hp _ IH]; intros keys Hk Hy.
  - destruct keys; [|discriminate]. exists []. split; reflexivity.
  - destruct keys as [|k keys]; [discriminate|].
    simpl in Hk. injection Hk as Hk1 Hk2.
    inversion Hy as [|? ? Hy1 Hy2]; subst.
    destruct (IH keys Hk2 Hy2) as (full & -> & Et).
    exists ((publication_time (months k), S.price p) :: full).
    split; [|simpl; now rewrite Et].
    simpl. f_equal.
    apply S_parsePeriod_date in Hp.
    destruct (convert_of_period_key _ _ Hk1) as (_ & _ & E).
    replace ((0 <=? fst k) && (fst k <=? 99)) with false in E
      by (symmetry; apply andb_false_iff; right; apply Z.leb_gt; lia).
    destruct p as [dt pr]. simpl in *. unfold S.period, timestamp, price_of, months. simpl.
    f_equal. congruence.
Qed.

Lemma StronglySorted_map_lt (f : Z -> Z) (l : list Z) :
  (forall a b, a < b -> f a < f b) ->
  StronglySorted Z.lt l -> StronglySorted Z.lt (map f l).
Proof.
  intros Hf H. induction H as [|a l Hl IH Ha]; simpl; constructor; [assumption|].
  rewrite Forall_map. eapply Forall_impl; [|exact Ha]. intros b Hb. now apply Hf.
Qed.

Lemma StronglySorted_of_map (l : list Sample) :
  StronglySorted Z.lt (map timestamp l) ->
  StronglySorted (fun a b => timestamp a < timestamp b) l.
Proof.
  induction l as [|a l IH]; simpl; intros H; constructor.
  - apply IH. now apply StronglySorted_inv in H.
  - apply StronglySorted_inv in H. destruct H as [_ H].
    rewrite Forall_map in H. exact H.
Qed.

Lemma strictly_sorted_ordered (l : list Sample) :
  StronglySorted (fun a b => timestamp a < timestamp b) l -> ordered l.
Proof.
  intros H. apply StronglySorted_Sorted.
  induction H as [|a l Hl IH Ha]; constructor; [assumption|].
  eapply Forall_impl; [|exact Ha]. intros b Hb. cbv beta in Hb. lia.
Qed.

(** What a refresh on well-formed, ascending period codes stores. *)
Lemma S_refresh_series (secondToDate : Z -> string) (formatDate : string -> string)
    (cfg : S.Config) (net : Networker S.Response) (now : Z) (st : S.State)
    (values : list S.DailyData) (keys : list (Z * Z)) :
  net (S.url_of secondToDate formatDate cfg now) = Ok (S.Value values) ->
  map (fun d => period_key (S.Periods d)) values = map Some keys ->
  Forall (fun k => 100 <= fst k) keys ->
  Sorted Z.lt (map months keys) ->
  S.returned (S.update secondToDate formatDate cfg net now st) = Ok tt ->
  S.requests (S.update secondToDate formatDate cfg net now st) <> [] ->
  exists (hist : list Sample) (newest : Sample),
    S.priceHistory (S.state (S.update secondToDate formatDate cfg net now st))
    = map S.period (hist ++ [newest])
    /\ S.lastUpdateTime (S.state (S.update secondToDate formatDate cfg net now st))
       = Some now
    /\ S.currentPrice (S.state (S.update secondToDate formatDate cfg net now st))
       = Some (price_of newest)
    /\ map timestamp (hist ++ [newest])
       = map (fun k => publication_time (months k)) keys
    /\ StronglySorted (fun a b => timestamp a < timestamp b) (hist ++ [newest])
    /\ Forall (fun s => timestamp s <> 0) (hist ++ [newest]).
Proof.
  intros Hnet Hk Hy Hs Hok Hreq.
  destruct (S_update_refreshed _ _ _ _ _ _ Hok Hreq) as (vs & ps & x & Hnet' & Hmap & E).
  rewrite Hnet in Hnet'. injection Hnet' as <-.
  apply mapM_Forall2 in Hmap.
  destruct (S_parsed_series _ _ _ _ Hmap Hk Hy) as (full & Efull & Et).
  destruct (exists_last (l := full)) as (hist & newest & ->).
  { intros ->. now destruct ps. }
  rewrite map_app in Efull. simpl in Efull. apply app_inj_tail in Efull.
  destruct Efull as [Eps Ex].
  exists hist, newest. rewrite E. cbn [S.state S.priceHistory S.lastUpdateTime S.currentPrice].
  split; [rewrite map_app, Eps, Ex; reflexivity|].
  split; [reflexivity|].
  split; [rewrite Ex; reflexivity|].
  split; [assumption|].
  split.
  - apply StronglySorted_of_map. rewrite Et.
    rewrite <- (map_map months publication_time).
    apply StronglySorted_map_lt; [exact publication_time_increasing|].
    apply Sorted_StronglySorted; [|assumption]. intros a b c; lia.
  - apply Forall_forall. intros s Hin.
    apply (in_map timestamp) in Hin. rewrite Et in Hin.
    apply in_map_iff in Hin. destruct Hin as (k & <- & _).
    apply publication_time_nonzero.
Qed.

(** X10.  Statistics Netherlands feed: after a refresh on a response whose
    period codes are well formed (four-digit year from 0100 on, two-digit
    month) and strictly ascending in 12 * year + month, the stored dates are the 22nd, 02:00 UTC,
    of the months the codes name (the month number read as a zero-based
    index), and the current price is the price of the period whose date is
    strictly the greatest. *)
Theorem statistics_refresh_in_period_order
    (secondToDate : Z -> string) (formatDate : string -> string)
    (cfg : S.Config) (net : Networker S.Response) (now : Z) (st : S.State)
    (values : list S.DailyData) (keys : list (Z * Z)) :
  net (S.url_of secondToDate formatDate cfg now) = Ok (S.Value values) ->
  map (fun d => period_key (S.Periods d)) values = map Some keys ->
  Forall (fun k => 100 <= fst k) keys ->
  Sorted Z.lt (map months keys) ->
  S.returned (S.update secondToDate formatDate cfg net now st) = Ok tt ->
  S.requests (S.update secondToDate formatDate cfg net now st) <> [] ->
  let st' := S.state (S.update secondToDate formatDate cfg net now st) in
  exists (hist : list Sample) (newest : Sample),
    S.priceHistory st' = map S.period (hist ++ [newest])
    /\ map timestamp (hist ++ [newest])
       = map (fun k => publication_time (months k)) keys
    /\ Forall (fun s => timestamp s < timestamp newest) hist
    /\ S.getCurrentPrice st' = Some (price_of newest).
Proof.
  intros Hnet Hk Hy Hs Hok Hreq st'.
  destruct (S_refresh_series _ _ _ _ _ _ _ _ Hnet Hk Hy Hs Hok Hreq)
    as (hist & newest & Eh & _ & Ec & Et & Hsorted & _).
  exists hist, newest. subst st'. repeat split; try assumption.
  clear - Hsorted. induction hist as [|a hist IH]; [constructor|].
  simpl in Hsorted. apply StronglySorted_inv in Hsorted. destruct Hsorted as [H1 H2].
  constructor; [|now apply IH].
  rewrite Forall_forall in H2. apply H2, in_elt.
Qed.

Lemma statistics_sample_keys :
  map (fun d => period_key (S.Periods d)) statistics_sample_value
  = map Some [(2023, 1); (2023, 2)].
Proof. reflexivity. Qed.

Lemma statistics_sample_keys_sorted : Sorted Z.lt (map months [(2023, 1); (2023, 2)]).
Proof. repeat constructor. Qed.

Lemma statistics_sample_keys_years : Forall (fun k : Z * Z => 100 <= fst k) [(2023, 1); (2023, 2)].
Proof. repeat constructor; vm_compute; discriminate. Qed.

Lemma statistics_refresh_in_period_order_sample :
  exists (hist : list Sample) (newest : Sample),
    S.priceHistory statistics_after_sample = map S.period (hist ++ [newest])
    /\ map timestamp (hist ++ [newest])
       = map (fun k => publication_time (months k)) [(2023, 1); (2023, 2)]
    /\ Forall (fun s => timestamp s < timestamp newest) hist
    /\ S.getCurrentPrice statistics_after_sample = Some (price_of newest).
Proof.
  apply (statistics_refresh_in_period_order any_secondToDate any_formatDate statistics_cfg
           statistics_net 1676300000 S.initial statistics_sample_value
           [(2023, 1); (2023, 2)]).
  - reflexivity.
  - exact statistics_sample_keys.
  - exact statistics_sample_keys_years.
  - exact statistics_sample_keys_sorted.
  - reflexivity.
  - discriminate.
Defined.

(** X11.  Statistics Netherlands feed: after a refresh on a response whose
    period codes are well formed and strictly ascending in 12 * year + month,
    [getHistoricalPrice] at the date of a stored period returns the price of
    that period. *)
Theorem statistics_lookup_at_stored_date
    (secondToDate : Z -> string) (formatDate : string -> string)
    (cfg : S.Config) (net : Networker S.Response) (now : Z) (st : S.State)
    (values : list S.DailyData) (keys : list (Z * Z)) :
  net (S.url_of secondToDate formatDate cfg now) = Ok (S.Value values) ->
  map (fun d => period_key (S.Periods d)) values = map Some keys ->
  Forall (fun k => 100 <= fst k) keys ->
  Sorted Z.lt (map months keys) ->
  S.returned (S.update secondToDate formatDate cfg net now st) = Ok tt ->
  S.requests (S.update secondToDate formatDate cfg net now st) <> [] ->
  let st' := S.state (S.update secondToDate formatDate cfg net now st) in
  forall p : S.PricePeriod,
    In p (S.priceHistory st') ->
    S.getHistoricalPrice st' (S.date p) = Ok (S.price p).
Proof.
  intros Hnet Hk Hy Hs Hok Hreq st' p Hin.
  destruct (S_refresh_series _ _ _ _ _ _ _ _ Hnet Hk Hy Hs Hok Hreq)
    as (hist & newest & Eh & _ & Ec & _ & Hsorted & Hnz).
  fold st' in Eh, Ec.
  rewrite Eh in Hin. apply in_map_iff in Hin. destruct Hin as (s & <- & Hin).
  change (S.date (S.period s)) with (Int (timestamp s)).
  change (S.price (S.period s)) with (price_of s).
  pose proof (strictly_sorted_ordered _ Hsorted) as Hord.
  assert (Hs0 : timestamp s <> 0) by (rewrite Forall_forall in Hnz; now apply Hnz).
  destruct (in_split _ _ Hin) as (l1 & r & E).
  destruct r as [|b l2].
  - apply app_inj_tail in E. destruct E as [-> ->].
    rewrite (S_lookup_at_newest _ _ _ Hord Hs0 Eh), Ec. reflexivity.
  - rewrite E in *.
    apply (S_lookup_own_price l1 s b l2); try assumption.
    clear - Hsorted. induction l1 as [|c l1 IH]; simpl in Hsorted;
      apply StronglySorted_inv in Hsorted; destruct Hsorted as [H1 H2].
    + apply Forall_inv in H2. exact H2.
    + now apply IH.
Qed.

Lemma statistics_lookup_at_stored_date_sample :
  S.getHistoricalPrice statistics_after_sample (Int 1677031200) = Ok 183300000000000000000
  /\ S.getHistoricalPrice statistics_after_sample (Int 1679450400)
     = Ok 180600000000000000000.
Proof.
  pose proof (statistics_lookup_at_stored_date any_secondToDate any_formatDate statistics_cfg
                statistics_net 1676300000 S.initial statistics_sample_value
                [(2023, 1); (2023, 2)] eq_refl statistics_sample_keys
                statistics_sample_keys_years statistics_sample_keys_sorted eq_refl) as H.
  assert (Hreq : S.requests (S.update any_secondToDate any_formatDate statistics_cfg
                               statistics_net 1676300000 S.initial) <> []) by discriminate.
  specialize (H Hreq). cbv zeta in H.
  split.
  - apply (H {| S.date := Int 1677031200; S.price := 183300000000000000000 |}).
    left. reflexivity.
  - apply (H {| S.date := Int 1679450400; S.price := 180600000000000000000 |}).
    right. left. reflexivity.
Defined.

(** ** What a refresh stores *)

Lemma S_parsePeriod_price (cfg : S.Config) (d : S.DailyData) (p : S.PricePeriod) :
  S.parsePeriod cfg d = Ok p ->
  S.convertPriceFeedDecimals cfg (trim (S.PriceIndexOfExistingOwnHomes_1 d)) = Ok (S.price p).
Proof.
  unfold S.parsePeriod. cbv zeta.
  destruct (S.convertPriceFeedDecimals cfg _); [|discriminate].
  intros H; injection H as <-. reflexivity.
Qed.

(** X12.  Both feeds: a refresh stores one period for each record of the
    response, in the order of the response, with that record's date (the
    TwelveData feed: [datetime] as it came; the Statistics Netherlands feed:
    the converted [Periods]) and converted price; nothing of the series of
    before is kept. *)
Theorem refresh_stores_each_record :
  (forall (url : string) (cfg : T.Config) (net : Networker T.Response) (now : Z)
          (st : T.State) (values : list T.DailyData),
      net url = Ok (T.Values values) ->
      T.returned (T.update url cfg net now st) = Ok tt ->
      T.requests (T.update url cfg net now st) <> [] ->
      Forall2
        (fun d p => T.date p = T.datetime d
                    /\ T.convertPriceFeedDecimals cfg (T.close d) = Ok (T.closePrice p))
        values (T.priceHistory (T.state (T.update url cfg net now st))))
  /\
  (forall (secondToDate : Z -> string) (formatDate : string -> string) (cfg : S.Config)
          (net : Networker S.Response) (now : Z) (st : S.State)
          (values : list S.DailyData),
      net (S.url_of secondToDate formatDate cfg now) = Ok (S.Value values) ->
      S.returned (S.update secondToDate formatDate cfg net now st) = Ok tt ->
      S.requests (S.update secondToDate formatDate cfg net now st) <> [] ->
      Forall2
        (fun d p => S.date p = S.convertFormattedDateToTimestamp (S.Periods d)
                    /\ S.convertPriceFeedDecimals cfg
                         (trim (S.PriceIndexOfExistingOwnHomes_1 d)) = Ok (S.price p))
        values
        (S.priceHistory (S.state (S.update secondToDate formatDate cfg net now st)))).
Proof.
  split.
  - intros url cfg net now st values Hnet Hok Hreq.
    destruct (T_update_refreshed _ _ _ _ _ Hok Hreq) as (vs & ps & x & Hnet' & Hmap & E).
    rewrite Hnet in Hnet'. injection Hnet' as <-.
    rewrite E; cbn [T.state T.priceHistory].
    apply mapM_Forall2 in Hmap.
    eapply Forall2_impl; [|exact Hmap].
    intros d p Hp. exact (T_parsePeriod_date cfg d p Hp).
  - intros sd fd cfg net now st values Hnet Hok Hreq.
    destruct (S_update_refreshed _ _ _ _ _ _ Hok Hreq) as (vs & ps & x & Hnet' & Hmap & E).
    rewrite Hnet in Hnet'. injection Hnet' as <-.
    rewrite E; cbn [S.state S.priceHistory].
    apply mapM_Forall2 in Hmap.
    eapply Forall2_impl; [|exact Hmap].
    intros d p Hp.
    split; [exact (S_parsePeriod_date cfg d p Hp)|exact (S_parsePeriod_price cfg d p Hp)].
Qed.

Lemma refresh_stores_each_record_sample :
  Forall2
    (fun d p => T.date p = T.datetime d
                /\ T.convertPriceFeedDecimals twelve_cfg (T.close d) = Ok (T.closePrice p))
    twelve_sample_values (T.priceHistory twelve_after_sample)
  /\
  Forall2
    (fun d p => S.date p = S.convertFormattedDateToTimestamp (S.Periods d)
                /\ S.convertPriceFeedDecimals statistics_cfg
                     (trim (S.PriceIndexOfExistingOwnHomes_1 d)) = Ok (S.price p))
    statistics_sample_value (S.priceHistory statistics_after_sample).
Proof.
  destruct refresh_stores_each_record as [HT HS].
  split.
  - apply (HT "url" twelve_cfg twelve_net 1676300000 T.initial twelve_sample_values).
    + reflexivity.
    + reflexivity.
    + discriminate.
  - apply (HS any_secondToDate any_formatDate statistics_cfg statistics_net 1676300000
              S.initial statistics_sample_value).
    + reflexivity.
    + reflexivity.
    + discriminate.
Defined.

Lemma Forall2_source {A B : Type} (R : A -> B -> Prop) (l : list A) (l' : list B) (y : B) :
  Forall2 R l l' -> In y l' -> exists x, In x l /\ R x y.
Proof.
  induction 1 as [|a b l l' Hab _ IH]; intros Hin; [contradiction|].
  destruct Hin as [<-|Hin].
  - exists a. split; [now left|assumption].
  - destruct (IH Hin) as (x & Hx & Hr). exists x. split; [now right|assumption].
Qed.

(** X13.  Both feeds: [update] does not look at the dates it stores.  After
    a refresh on records none of which has a usable date (TwelveData: a
    [datetime] that is missing, empty or 0; Statistics Netherlands: a
    [Periods] that converts to NaN), [getCurrentPrice] returns a price while
    [getHistoricalPrice] throws "no valid price periods" for every time. *)
Theorem refresh_without_dates :
  (forall (url : string) (cfg : T.Config) (net : Networker T.Response) (now : Z)
          (st : T.State) (values : list T.DailyData),
      net url = Ok (T.Values values) ->
      Forall (fun d => truthy (T.datetime d) = false) values ->
      T.returned (T.update url cfg net now st) = Ok tt ->
      T.requests (T.update url cfg net now st) <> [] ->
      (exists p, T.getCurrentPrice (T.state (T.update url cfg net now st)) = Some p)
      /\ forall time : number,
           T.getHistoricalPrice (T.state (T.update url cfg net now st)) time
           = Throw EmptySeriesError)
  /\
  (forall (secondToDate : Z -> string) (formatDate : string -> string) (cfg : S.Config)
          (net : Networker S.Response) (now : Z) (st : S.State)
          (values : list S.DailyData),
      net (S.url_of secondToDate formatDate cfg now) = Ok (S.Value values) ->
      Forall (fun d => S.convertFormattedDateToTimestamp (S.Periods d) = NaN) values ->
      S.returned (S.update secondToDate formatDate cfg net now st) = Ok tt ->
      S.requests (S.update secondToDate formatDate cfg net now st) <> [] ->
      (exists p, S.getCurrentPrice
                   (S.state (S.update secondToDate formatDate cfg net now st)) = Some p)
      /\ forall time : number,
           S.getHistoricalPrice
             (S.state (S.update secondToDate formatDate cfg net now st)) time
           = Throw EmptySeriesError).
Proof.
  split.
  - intros url cfg net now st values Hnet Hbad Hok Hreq.
    destruct (T_update_refreshed _ _ _ _ _ Hok Hreq) as (vs & ps & x & Hnet' & Hmap & E).
    rewrite Hnet in Hnet'. injection Hnet' as <-.
    rewrite E; cbn [T.state]. split; [eexists; reflexivity|].
    intros time. unfold T.getHistoricalPrice.
    cbn [T.lastUpdateTime T.priceHistory of_field].
    rewrite find_none_all; [reflexivity|].
    pose proof (T_parsed_dates _ _ _ Hmap) as Hd.
    apply Forall_forall. intros p Hp.
    apply (in_map T.date) in Hp. rewrite Hd in Hp.
    apply in_map_iff in Hp. destruct Hp as (d & <- & Hin).
    rewrite Forall_forall in Hbad. now apply Hbad.
  - intros sd fd cfg net now st values Hnet Hbad Hok Hreq.
    destruct (S_update_refreshed _ _ _ _ _ _ Hok Hreq) as (vs & ps & x & Hnet' & Hmap & E).
    rewrite Hnet in Hnet'. injection Hnet' as <-.
    rewrite E; cbn [S.state]. split; [eexists; reflexivity|].
    intros time. unfold S.getHistoricalPrice.
    cbn [S.lastUpdateTime S.priceHistory of_field].
    rewrite find_none_all; [reflexivity|].
    apply mapM_Forall2 in Hmap.
    apply Forall_forall. intros p Hp.
    destruct (Forall2_source _ _ _ _ Hmap Hp) as (d & Hin & Hd).
    apply S_parsePeriod_date in Hd. rewrite Hd.
    rewrite Forall_forall in Hbad. now rewrite (Hbad d Hin).
Qed.

Lemma refresh_without_dates_sample :
  (let net : Networker T.Response :=
     fun _ => Ok (T.Values [ {| T.datetime := VUndefined; T.close := "116.84000" |} ]) in
   let st' := T.state (T.update "url" twelve_cfg net 1676300000 T.initial) in
   T.getCurrentPrice st' = Some 116840000000000000000
   /\ T.getHistoricalPrice st' (Int 1676300000) = Throw EmptySeriesError)
  /\
  (let net : Networker S.Response :=
     fun _ => Ok (S.Value [ {| S.Periods := "Q1 2023";
                              S.PriceIndexOfExistingOwnHomes_1 := "183.3" |} ]) in
   let st' := S.state (S.update any_secondToDate any_formatDate statistics_cfg net
                         1676300000 S.initial) in
   S.getCurrentPrice st' = Some 183300000000000000000
   /\ S.getHistoricalPrice st' (Int 1676300000) = Throw EmptySeriesError).
Proof.
  destruct refresh_without_dates as [HT HS].
  split.
  - cbv zeta. split; [reflexivity|].
    set (values := [ {| T.datetime := VUndefined; T.close := "116.84000" |} ]).
    assert (Hbad : Forall (fun d => truthy (T.datetime d) = false) values)
      by (repeat constructor).
    assert (Hreq : T.requests (T.update "url" twelve_cfg (fun _ => Ok (T.Values values))
                                 1676300000 T.initial) <> []) by discriminate.
    exact (proj2 (HT "url" twelve_cfg (fun _ => Ok (T.Values values)) 1676300000
                     T.initial values eq_refl Hbad eq_refl Hreq) (Int 1676300000)).
  - cbv zeta. split; [reflexivity|].
    set (values := [ {| S.Periods := "Q1 2023";
                        S.PriceIndexOfExistingOwnHomes_1 := "183.3" |} ]).
    assert (Hbad : Forall (fun d => S.convertFormattedDateToTimestamp (S.Periods d) = NaN)
                     values) by (repeat constructor).
    assert (Hreq : S.requests (S.update any_secondToDate any_formatDate statistics_cfg
                                 (fun _ => Ok (S.Value values)) 1676300000 S.initial)
                   <> []) by discriminate.
    exact (proj2 (HS any_secondToDate any_formatDate statistics_cfg
                     (fun _ => Ok (S.Value values)) 1676300000 S.initial values
                     eq_refl Hbad eq_refl Hreq) (Int 1676300000)).
Defined.

(** ** incrementMonthAsString *)



(** ** Prices that convert whole *)

Lemma substring0_short (n : Z) (s : string) :
  Z.of_nat (String.length s) <= n -> substring0 n s = s.
Proof.
  unfold substring0. intros H.
  assert (Hn : (String.length s <= Z.to_nat n)%nat) by lia. clear H.
  revert Hn. generalize (Z.to_nat n) as k. clear n.
  induction s as [|c s IH]; intros k Hk.
  - now destruct k.
  - destruct k as [|k]; [simpl in Hk; lia|].
    simpl. rewrite IH; [reflexivity|simpl in Hk; lia].
Qed.

(** X15.  Both feeds: a price string of no more than [priceFeedDecimals]
    characters reaches [parseFixed] whole; the conversion cuts nothing off
    it. *)
Theorem conversion_of_short_string :
  (forall (cfg : T.Config) (number : string),
      Z.of_nat (String.length number) <= T.getPriceFeedDecimals cfg ->
      T.convertPriceFeedDecimals cfg number
      = Fixed.parseFixed number (T.getPriceFeedDecimals cfg))
  /\
  (forall (cfg : S.Config) (number : string),
      Z.of_nat (String.length number) <= S.getPriceFeedDecimals cfg ->
      S.convertPriceFeedDecimals cfg number
      = Fixed.parseFixed number (S.getPriceFeedDecimals cfg)).
Proof.
  split; intros cfg number H.
  - unfold T.convertPriceFeedDecimals, T.getPriceFeedDecimals in *.
    now rewrite substring0_short.
  - unfold S.convertPriceFeedDecimals, S.getPriceFeedDecimals in *.
    now rewrite substring0_short.
Qed.

Lemma conversion_of_short_string_sample :
  T.convertPriceFeedDecimals twelve_cfg "116.84000" = Fixed.parseFixed "116.84000" 18
  /\ S.convertPriceFeedDecimals statistics_cfg "183.3" = Fixed.parseFixed "183.3" 18.
Proof.
  destruct conversion_of_short_string as [HT HS].
  split.
  - apply (HT twelve_cfg "116.84000"). vm_compute. discriminate.
  - apply (HS statistics_cfg "183.3"). vm_compute. discriminate.
Defined.

(** ** White space around a price *)

Lemma trim_end_idem (l : list ascii) : trim_end (trim_end l) = trim_end l.
Proof.
  induction l as [|c r IH]; [reflexivity|].
  cbn [trim_end]. destruct (trim_end r) as [|x r'] eqn:E.
  - destruct (is_space c) eqn:Hc; [reflexivity|].
    cbn [trim_end]. now rewrite Hc.
  - cbn [trim_end]. cbn [trim_end] in IH. rewrite IH. reflexivity.
Qed.

Lemma trim_start_head (l : list ascii) :
  trim_start l = [] \/ exists c r, trim_start l = c :: r /\ is_space c = false.
Proof.
  induction l as [|c r IH]; [now left|].
  simpl. destruct (is_space c) eqn:Hc; [exact IH|].
  right. exists c, r. now split.
Qed.

Lemma trim_end_head (c : ascii) (r : list ascii) :
  is_space c = false -> exists r', trim_end (c :: r) = c :: r'.
Proof.
  intros Hc. cbn [trim_end]. destruct (trim_end r) as [|x r'].
  - rewrite Hc. now exists [].
  - now exists (x :: r').
Qed.

Lemma trim_idem (s : string) : trim (trim s) = trim s.
Proof.
  unfold trim. rewrite list_ascii_of_string_of_list_ascii. f_equal.
  destruct (trim_start_head (list_ascii_of_string s)) as [->|(c & r & -> & Hc)];
    [reflexivity|].
  destruct (trim_end_head c r Hc) as (r' & E). rewrite E.
  rewrite (trim_start_nonspace c r' Hc). rewrite <- E. apply trim_end_idem.
Qed.

(** X16.  Statistics Netherlands feed: the price field is trimmed before it
    is converted, so a record and the same record with the white space around
    its price removed are stored as the same period, or fail the same way. *)
Theorem statistics_price_is_trimmed (cfg : S.Config) (d : S.DailyData) :
  S.parsePeriod cfg d
  = S.parsePeriod cfg
      {| S.Periods := S.Periods d;
         S.PriceIndexOfExistingOwnHomes_1 := trim (S.PriceIndexOfExistingOwnHomes_1 d) |}.
Proof.
  unfold S.parsePeriod. cbn [S.Periods S.PriceIndexOfExistingOwnHomes_1].
  now rewrite trim_idem.
Qed.

(** ** Rule B on the series that update stores *)









